(** * OneToNDatasetAdapter: a shallow embedding of
      [ampligraph/datasets/oneton_adapter.py]

    The adapter keeps named datasets of index triples, groups objects by
    [(subject, predicate)] into an output mapping, and yields batches of
    triples paired with dense 0/1 label rows, either sliced from a cached
    matrix (eager mode) or computed per batch ([low_memory] mode).

    Python objects are modelled as follows.
    - An index array cell is a [Z]; [np.int32] is the wrap to 32 bits.
    - A stored dataset (an array of shape [(n, 3)]) is a [list triple].
    - A dict keyed by dataset name is a [gmap string _]; the output mapping,
      a dict keyed by a pair of indices, is a [gmap (Z * Z) (list Z)].
    - [ent_to_idx] and [rel_to_idx] are insertion-ordered association lists.
    - A method is a function from the adapter to an outcome and the adapter
      it leaves behind; a raised exception keeps the mutations made so far.
    - A generator is run to its end with no other method called in between;
      its value is the list of yielded items and the way it ended. *)

From Stdlib Require Import ZArith Lia.
From stdpp Require Import base option list gmap strings.

Local Open Scope Z_scope.

(** ** Data *)

Definition triple : Type := Z * Z * Z.

Definition subj (x : triple) : Z := x.1.1.
Definition pred (x : triple) : Z := x.1.2.
Definition obj (x : triple) : Z := x.2.

Definition matrix : Type := list (list Z).

(** A batch as yielded by [get_next_batch]: [(out, out_onehot)]. *)
Definition batch : Type := list triple * matrix.

(** An item yielded by [get_next_batch_subject_corruptions]:
    [(test_triples, out, out_filter)]. *)
Definition corruption_batch : Type := list triple * list triple * matrix.

(** Arrays as [set_data] may receive them: one or two dimensions. *)
Inductive ndarray : Type :=
  | Array1 (xs : list Z)
  | Array2 (ncols : nat) (rows : list (list Z)).

(** A Python value that is an [np.ndarray] or is not one. *)
Inductive pyvalue : Type :=
  | PyNdarray (a : ndarray)
  | PyNotArray.

(** The [dataset] argument of [set_data]: a dict from dataset names to
    values, listed in key order, or a value that is not a dict. *)
Inductive pyobj : Type :=
  | PyDict (items : list (string * pyvalue))
  | PyValue (v : pyvalue).

Inductive exn : Type :=
  | KeyError
  | ValueError
  | IndexError
  | AttributeError
  | ZeroDivisionError
  | Exception.

Inductive outcome (A : Type) : Type :=
  | Return (a : A)
  | Raise (e : exn).
Arguments Return {A} a.
Arguments Raise {A} e.

(** How a generator run ends: [StopIteration], an exception, or still
    suspended at a [yield] when the pulls granted to the run are used up. *)
Inductive ending : Type :=
  | Exhausted
  | Raised (e : exn)
  | Suspended.

(** The attributes inherited from [NumpyDatasetAdapter]. *)
Record NumpyDatasetAdapter : Type := mkBase {
  dataset : gmap string (list triple);
  mapped_status : gmap string bool;
  ent_to_idx : list (string * Z);
  rel_to_idx : list (string * Z)
}.

Record OneToNDatasetAdapter : Type := mkAdapter {
  base : NumpyDatasetAdapter;
  filter_mapping : option (gmap (Z * Z) (list Z));
  filtered_status : gmap string bool;
  output_mapping : option (gmap (Z * Z) (list Z));
  output_onehot : gmap string matrix;
  low_memory : bool
}.

(** [OneToNDatasetAdapter.__init__] over a freshly built base adapter. *)
Definition init (b : NumpyDatasetAdapter) (low_mem : bool) : OneToNDatasetAdapter :=
  {| base := b;
     filter_mapping := None;
     filtered_status := ∅;
     output_mapping := None;
     output_onehot := ∅;
     low_memory := low_mem |}.

Definition with_base (a : OneToNDatasetAdapter) (b : NumpyDatasetAdapter)
  : OneToNDatasetAdapter :=
  {| base := b;
     filter_mapping := filter_mapping a;
     filtered_status := filtered_status a;
     output_mapping := output_mapping a;
     output_onehot := output_onehot a;
     low_memory := low_memory a |}.

Definition with_low_memory (a : OneToNDatasetAdapter) (lm : bool)
  : OneToNDatasetAdapter :=
  {| base := base a;
     filter_mapping := filter_mapping a;
     filtered_status := filtered_status a;
     output_mapping := output_mapping a;
     output_onehot := output_onehot a;
     low_memory := lm |}.

(** [x is None]. *)
Definition is_None {A : Type} (x : option A) : bool :=
  match x with
  | None => true
  | Some _ => false
  end.

(** ** numpy primitives *)

(** [np.int32] on a cell of an integer array: the wrap to 32 bits, which
    is the identity on the cells that fit in 32 bits.  The statements in
    which a run depends on the cast assume that the cells fit; what the
    cast does to an array of Python integers too large for a machine
    integer is not modelled. *)
Definition int32 (z : Z) : Z := (z + 2 ^ 31) mod 2 ^ 32 - 2 ^ 31.

Definition int32_triple (x : triple) : triple :=
  (int32 (subj x), int32 (pred x), int32 (obj x)).

Definition fits_int32 (z : Z) : bool := (- 2 ^ 31 <=? z) && (z <? 2 ^ 31).

Definition triple_fits_int32 (x : triple) : bool :=
  fits_int32 (subj x) && fits_int32 (pred x) && fits_int32 (obj x).

(** A slice bound of [l[lo:hi]] brought into [0 .. len]. *)
Definition clamp (len i : Z) : Z :=
  if i <? 0 then Z.max 0 (i + len) else Z.min i len.

(** [l[lo:hi]]. *)
Definition py_slice {A : Type} (l : list A) (lo hi : Z) : list A :=
  let n := Z.of_nat (length l) in
  let a := clamp n lo in
  let b := clamp n hi in
  take (Z.to_nat (b - a)) (drop (Z.to_nat a) l).

(** An integer used as an index into an axis of length [n]: negative
    indices count from the end, anything else out of range is an
    [IndexError] ([None]). *)
Definition np_index (n : nat) (i : Z) : option nat :=
  if (0 <=? i) && (i <? Z.of_nat n) then Some (Z.to_nat i)
  else if (- Z.of_nat n <=? i) && (i <? 0) then Some (Z.to_nat (i + Z.of_nat n))
  else None.

(** [row[indices] = 1]; the indices are checked before anything is written. *)
Definition set_ones (row : list Z) (indices : list Z) : option (list Z) :=
  js ← mapM (np_index (length row)) indices;
  Some (foldr (fun j r => <[j := 1]> r) row js).

(** [int(np.ceil(n / k))] for [k <> 0]; the float quotient is exact enough
    for the ceiling to be the integer one for every size below [2^53]. *)
Definition ceil_div (n k : Z) : Z := - ((- n) / k).

(** ** The output mapping *)

(** [output_mapping.setdefault((s, p), []).append(o)]. *)
Definition setdefault_append (m : gmap (Z * Z) (list Z)) (x : triple)
  : gmap (Z * Z) (list Z) :=
  <[(subj x, pred x) := default [] (m !! (subj x, pred x)) ++ [obj x]]> m.

(** The loop of [generate_output_mapping] over the rows of a dataset. *)
Definition group_objects (ts : list triple) : gmap (Z * Z) (list Z) :=
  foldl setdefault_append ∅ ts.

(** [output_dict.get((x[0], x[1]), [])]; [output_dict] may be [None]. *)
Definition dict_get (output_dict : option (gmap (Z * Z) (list Z))) (x : triple)
  : outcome (list Z) :=
  match output_dict with
  | None => Raise AttributeError
  | Some d => Return (default [] (d !! (subj x, pred x)))
  end.

(** One row of a one-hot matrix of width [width]: zeros, then
    [row[indices] = 1]. *)
Definition onehot_row (width : nat) (output_dict : option (gmap (Z * Z) (list Z)))
    (x : triple) : outcome (list Z) :=
  match dict_get output_dict x with
  | Raise e => Raise e
  | Return indices =>
      match set_ones (replicate width 0) indices with
      | None => Raise IndexError
      | Some r => Return r
      end
  end.

(** The per-batch loop of the low-memory path and of the corruption
    generator: [np.zeros], then one row after the other; the first failing
    row raises. *)
Fixpoint onehot_batch (width : nat) (output_dict : option (gmap (Z * Z) (list Z)))
    (out : list triple) : outcome matrix :=
  match out with
  | [] => Return []
  | x :: out' =>
      match onehot_row width output_dict x with
      | Raise e => Raise e
      | Return r =>
          match onehot_batch width output_dict out' with
          | Raise e => Raise e
          | Return m => Return (r :: m)
          end
      end
  end.

(** The loop of [generate_onehot_outputs] writing into the cached matrix:
    when row [i] raises, rows before [i] are set and the others are still
    zero.  The flag tells whether the loop ran to its end. *)
Fixpoint fill_onehot (width : nat) (output_dict : gmap (Z * Z) (list Z))
    (ts : list triple) : matrix * bool :=
  match ts with
  | [] => ([], true)
  | x :: ts' =>
      match onehot_row width (Some output_dict) x with
      | Raise _ => (replicate (length ts) (replicate width 0), false)
      | Return r =>
          let '(m, ok) := fill_onehot width output_dict ts' in (r :: m, ok)
      end
  end.

(** ** The methods *)

Section Adapter.

(** Modelled from the spec: [NumpyDatasetAdapter.map_data], absent from
    the sources, is the index mapper of the base class; it assigns indices
    to the datasets not yet mapped.  It is a parameter of the development
    and sees the inherited attributes only. *)
Variable map_data : NumpyDatasetAdapter -> NumpyDatasetAdapter.

(** Modelled from the spec: [NumpyDatasetAdapter.get_size], absent from the
    sources, is the read accessor giving the size of a named dataset, its
    number of rows. *)
Definition get_size (a : OneToNDatasetAdapter) (dataset_type : string)
  : outcome Z :=
  match dataset (base a) !! dataset_type with
  | None => Raise KeyError
  | Some ts => Return (Z.of_nat (length ts))
  end.

(** [if not self.mapped_status[dataset_type]: self.map_data()]. *)
Definition ensure_mapped (a : OneToNDatasetAdapter) (dataset_type : string)
  : outcome unit * OneToNDatasetAdapter :=
  match mapped_status (base a) !! dataset_type with
  | None => (Raise KeyError, a)
  | Some true => (Return tt, a)
  | Some false => (Return tt, with_base a (map_data (base a)))
  end.

(** [_validate_data]: the type test, then [np.shape(data)[1] != 3]; a
    one-dimensional array has no [shape[1]]. *)
Definition _validate_data (data : pyvalue) : outcome unit :=
  match data with
  | PyNotArray => Raise ValueError
  | PyNdarray (Array1 _) => Raise IndexError
  | PyNdarray (Array2 ncols _) =>
      if (ncols =? 3)%nat then Return tt else Raise ValueError
  end.

(** The rows of an array of three columns, as the store keeps them; every
    row of such an array has three cells. *)
Definition rows_of (data : pyvalue) : list triple :=
  match data with
  | PyNdarray (Array2 _ rows) =>
      omap (fun r => match r with
                     | [s; p; o] => Some (s, p, o)
                     | _ => None
                     end) rows
  | _ => []
  end.

(** [self.dataset[key] = data; self.mapped_status[key] = mapped]. *)
Definition assign_dataset (b : NumpyDatasetAdapter) (key : string)
    (data : pyvalue) (mapped : bool) : NumpyDatasetAdapter :=
  {| dataset := <[key := rows_of data]> (dataset b);
     mapped_status := <[key := mapped]> (mapped_status b);
     ent_to_idx := ent_to_idx b;
     rel_to_idx := rel_to_idx b |}.

(** The loop of [set_data] over the keys of a dict. *)
Fixpoint set_data_items (b : NumpyDatasetAdapter)
    (items : list (string * pyvalue)) (mapped : bool)
  : outcome unit * NumpyDatasetAdapter :=
  match items with
  | [] => (Return tt, b)
  | (key, v) :: items' =>
      match _validate_data v with
      | Raise e => (Raise e, b)
      | Return _ => set_data_items (assign_dataset b key v mapped) items' mapped
      end
  end.

(** The end of [set_data]: datasets are mapped at once when both
    vocabularies are present. *)
Definition map_if_vocab (b : NumpyDatasetAdapter) : NumpyDatasetAdapter :=
  if negb ((length (rel_to_idx b) =? 0)%nat || (length (ent_to_idx b) =? 0)%nat)
  then map_data b else b.

Definition set_data (a : OneToNDatasetAdapter) (data : pyobj)
    (dataset_type : option string) (mapped : bool)
  : outcome unit * OneToNDatasetAdapter :=
  match data, dataset_type with
  | PyDict items, _ =>
      match set_data_items (base a) items mapped with
      | (Raise e, b) => (Raise e, with_base a b)
      | (Return _, b) => (Return tt, with_base a (map_if_vocab b))
      end
  | PyValue v, Some name =>
      match _validate_data v with
      | Raise e => (Raise e, a)
      | Return _ =>
          (Return tt, with_base a (map_if_vocab (assign_dataset (base a) name v mapped)))
      end
  | PyValue _, None => (Raise Exception, a)
  end.

Definition generate_output_mapping (a : OneToNDatasetAdapter)
    (dataset_type : string)
  : outcome (gmap (Z * Z) (list Z)) * OneToNDatasetAdapter :=
  match ensure_mapped a dataset_type with
  | (Raise e, a1) => (Raise e, a1)
  | (Return _, a1) =>
      match dataset (base a1) !! dataset_type with
      | None => (Raise KeyError, a1)
      | Some ts => (Return (group_objects ts), a1)
      end
  end.

Definition set_filter (a : OneToNDatasetAdapter) (filter_triples : pyobj)
    (mapped : bool) : outcome unit * OneToNDatasetAdapter :=
  match set_data a filter_triples (Some "filter"%string) mapped with
  | (Raise e, a1) => (Raise e, a1)
  | (Return _, a1) =>
      match generate_output_mapping a1 "filter" with
      | (Raise e, a2) => (Raise e, a2)
      | (Return m, a2) =>
          (Return tt,
           {| base := base a2;
              filter_mapping := Some m;
              filtered_status := filtered_status a2;
              output_mapping := output_mapping a2;
              output_onehot := output_onehot a2;
              low_memory := low_memory a2 |})
      end
  end.

Definition set_output_mapping (a : OneToNDatasetAdapter)
    (output_dict : gmap (Z * Z) (list Z)) : OneToNDatasetAdapter :=
  {| base := base a;
     filter_mapping := filter_mapping a;
     filtered_status := filtered_status a;
     output_mapping := Some output_dict;
     output_onehot := ∅;
     low_memory := low_memory a |}.

(** The mapping [generate_onehot_outputs] resolves: a missing one is a
    [ValueError]. *)
Definition resolve_mapping (a : OneToNDatasetAdapter) (use_filter : bool)
  : outcome (gmap (Z * Z) (list Z)) :=
  match (if use_filter then filter_mapping a else output_mapping a) with
  | None => Raise ValueError
  | Some d => Return d
  end.

Definition generate_onehot_outputs (a : OneToNDatasetAdapter)
    (dataset_type : string) (use_filter : bool)
  : outcome unit * OneToNDatasetAdapter :=
  match dataset (base a) !! dataset_type with
  | None => (Raise ValueError, a)
  | Some ts =>
      match resolve_mapping a use_filter with
      | Raise e => (Raise e, a)
      | Return output_dict =>
          if low_memory a then (Return tt, a)
          else
            let '(m, ok) := fill_onehot (length (ent_to_idx (base a))) output_dict ts in
            let a1 :=
              {| base := base a;
                 filter_mapping := filter_mapping a;
                 filtered_status := filtered_status a;
                 output_mapping := output_mapping a;
                 output_onehot := <[dataset_type := m]> (output_onehot a);
                 low_memory := low_memory a |} in
            if ok then
              (Return tt,
               {| base := base a1;
                  filter_mapping := filter_mapping a1;
                  filtered_status := <[dataset_type := use_filter]> (filtered_status a1);
                  output_mapping := output_mapping a1;
                  output_onehot := output_onehot a1;
                  low_memory := low_memory a1 |})
            else (Raise IndexError, a1)
      end
  end.

(** The test of [get_next_batch] before it serves the cached matrix:
    [dataset_type not in self.output_onehot.keys() or
     (use_filter and not self.filtered_status[dataset_type])]. *)
Definition needs_rebuild (a : OneToNDatasetAdapter) (dataset_type : string)
    (use_filter : bool) : outcome bool :=
  match output_onehot a !! dataset_type with
  | None => Return true
  | Some _ =>
      if use_filter then
        match filtered_status a !! dataset_type with
        | None => Raise KeyError
        | Some f => Return (negb f)
        end
      else Return false
  end.

(** The rows [(i * batch_size):((i + 1) * batch_size)] of the dataset,
    through [np.int32]. *)
Definition triples_slice (ts : list triple) (batch_size : Z) (i : nat)
  : list triple :=
  int32_triple <$>
    py_slice ts (Z.of_nat i * batch_size) ((Z.of_nat i + 1) * batch_size).

(** The yield loop of the eager path, over [range(batches_count)]. *)
Definition eager_batches (ts : list triple) (onehot : matrix) (batch_size : Z)
    (batches_count : Z) : list batch :=
  (fun i => (triples_slice ts batch_size i,
             py_slice onehot (Z.of_nat i * batch_size)
                             ((Z.of_nat i + 1) * batch_size)))
    <$> seq 0 (Z.to_nat batches_count).

(** The yield loop of the low-memory path over the remaining values of
    [i]; a row that raises ends the run after the batches yielded so far. *)
Fixpoint lazy_batches (width : nat) (output_dict : option (gmap (Z * Z) (list Z)))
    (ts : list triple) (batch_size : Z) (idxs : list nat) : list batch * ending :=
  match idxs with
  | [] => ([], Exhausted)
  | i :: idxs' =>
      let out := triples_slice ts batch_size i in
      match onehot_batch width output_dict out with
      | Raise e => ([], Raised e)
      | Return out_onehot =>
          let '(ys, e) := lazy_batches width output_dict ts batch_size idxs' in
          ((out, out_onehot) :: ys, e)
      end
  end.

(** [batch_size] and the number of batches, from [batches_count] and the
    size [n] of the dataset. *)
Definition batch_plan (n batches_count : Z) : outcome (Z * Z) :=
  if batches_count =? -1 then Return (1, n)
  else if batches_count =? 0 then Raise ZeroDivisionError
  else Return (ceil_div n batches_count, batches_count).

Definition get_next_batch (a : OneToNDatasetAdapter) (batches_count : Z)
    (dataset_type : string) (use_filter : bool)
  : list batch * ending * OneToNDatasetAdapter :=
  match ensure_mapped a dataset_type with
  | (Raise e, a1) => ([], Raised e, a1)
  | (Return _, a1) =>
  match dataset (base a1) !! dataset_type with
  | None => ([], Raised KeyError, a1)
  | Some ts =>
  match batch_plan (Z.of_nat (length ts)) batches_count with
  | Raise e => ([], Raised e, a1)
  | Return (batch_size, count) =>
  if use_filter && is_None (filter_mapping a1)
  then ([], Raised ValueError, a1)
  else if negb (low_memory a1) then
    let rebuilt :=
      match needs_rebuild a1 dataset_type use_filter with
      | Raise e => (Raise e, a1)
      | Return true => generate_onehot_outputs a1 dataset_type use_filter
      | Return false => (Return tt, a1)
      end in
    match rebuilt with
    | (Raise e, a2) => ([], Raised e, a2)
    | (Return _, a2) =>
        match output_onehot a2 !! dataset_type with
        | None => ([], Raised KeyError, a2)
        | Some onehot => (eager_batches ts onehot batch_size count, Exhausted, a2)
        end
    end
  else
    let output_dict := if use_filter then filter_mapping a1 else output_mapping a1 in
    let '(ys, e) :=
      lazy_batches (length (ent_to_idx (base a1))) output_dict ts batch_size
                   (seq 0 (Z.to_nat count)) in
    (ys, e, a1)
  end end end.

(** The [while ent_idx < len(ent_list)] loop for one relation.  [pulls]
    bounds the number of batches the consumer asks for; what is left of it
    is returned for the relations that follow. *)
Fixpoint corruption_chunks (pulls : nat)
    (output_dict : option (gmap (Z * Z) (list Z))) (ent_list : list Z)
    (batch_size rel : Z) (test_triples : list triple) (ent_idx : Z)
  : list corruption_batch * ending * nat :=
  if negb (ent_idx <? Z.of_nat (length ent_list)) then ([], Exhausted, pulls)
  else
    match pulls with
    | O => ([], Suspended, O)
    | S pulls' =>
        let ents := py_slice ent_list ent_idx (ent_idx + batch_size) in
        let out := (fun e => (e, rel, 0)) <$> ents in
        match onehot_batch (length ent_list) output_dict out with
        | Raise e => ([], Raised e, pulls')
        | Return out_filter =>
            let '(ys, e, rest) :=
              corruption_chunks pulls' output_dict ent_list batch_size rel
                                test_triples (ent_idx + batch_size) in
            ((test_triples, out, out_filter) :: ys, e, rest)
        end
    end.

(** The [for rel in rel_list] loop. *)
Fixpoint corruption_relations (pulls : nat) (data : option (list triple))
    (output_dict : option (gmap (Z * Z) (list Z))) (ent_list : list Z)
    (batch_size : Z) (rel_list : list Z) : list corruption_batch * ending :=
  match rel_list with
  | [] => ([], Exhausted)
  | rel :: rel_list' =>
      match data with
      | None => ([], Raised KeyError)
      | Some ts =>
          let test_triples := filter (fun x => pred x = rel) ts in
          match corruption_chunks pulls output_dict ent_list batch_size rel
                                  test_triples 0 with
          | (ys, Exhausted, rest) =>
              let '(zs, e) :=
                corruption_relations rest data output_dict ent_list batch_size
                                     rel_list' in
              (ys ++ zs, e)
          | (ys, e, _) => (ys, e)
          end
      end
  end.

Definition get_next_batch_subject_corruptions (pulls : nat)
    (a : OneToNDatasetAdapter) (batch_size : Z) (dataset_type : string)
    (use_filter : bool) : list corruption_batch * ending :=
  let output_dict := if use_filter then filter_mapping a else output_mapping a in
  match (if batch_size =? -1 then get_size a dataset_type else Return batch_size) with
  | Raise e => ([], Raised e)
  | Return batch_size' =>
      corruption_relations pulls (dataset (base a) !! dataset_type) output_dict
        (ent_to_idx (base a)).*2 batch_size' (rel_to_idx (base a)).*2
  end.

End Adapter.

(** Modelled from the spec: [map_data] is safe to call when the data is
    mapped already.  This is the index mapper of the examples, whose
    datasets hold indices when they are set: there is no index left to
    assign, and every dataset is marked as mapped. *)
Definition mark_mapped (b : NumpyDatasetAdapter) : NumpyDatasetAdapter :=
  {| dataset := dataset b;
     mapped_status := (fun _ => true) <$> mapped_status b;
     ent_to_idx := ent_to_idx b;
     rel_to_idx := rel_to_idx b |}.

(** ** The negatives *)

(** The body of the loops of [generate_negative_output_mappings] for one
    pair: [if not x in A_mapping.keys(): A_negatives.append(x)]; the
    mapping of the companion may be [None]. *)
Definition negatives_step (A_mapping : option (gmap (Z * Z) (list Z)))
    (acc : outcome (list (Z * Z))) (x : Z * Z) : outcome (list (Z * Z)) :=
  match acc with
  | Raise e => Raise e
  | Return A_negatives =>
      match A_mapping with
      | None => Raise AttributeError
      | Some m =>
          Return (if bool_decide (is_Some (m !! x)) then A_negatives
                  else A_negatives ++ [x])
      end
  end.

(** [generate_negative_output_mappings].  [self.A_adapter] is not an
    attribute that [__init__] sets: it is the argument [A_adapter], [None]
    when the attribute is absent.  The value is the list the method stores
    in [self.A_negatives]. *)
Definition generate_negative_output_mappings (a : OneToNDatasetAdapter)
    (A_adapter : option OneToNDatasetAdapter) : outcome (list (Z * Z)) :=
  match A_adapter with
  | None => Raise AttributeError
  | Some companion =>
      foldl (fun acc e =>
               foldl (fun acc' r => negatives_step (output_mapping companion) acc' (e, r))
                     acc (rel_to_idx (base a)).*2)
            (Return []) (ent_to_idx (base a)).*2
  end.

(** The pairs of an entity and a relation, in the order of the loops. *)
Definition vocabulary_pairs (a : OneToNDatasetAdapter) : list (Z * Z) :=
  e ← (ent_to_idx (base a)).*2; (fun r => (e, r)) <$> (rel_to_idx (base a)).*2.

(** ** Reference notions used in the statements *)

(** The objects of the rows of [ts] whose subject and predicate are [k],
    in the order of the rows. *)
Definition objects_of (k : Z * Z) (ts : list triple) : list Z :=
  obj <$> filter (fun x => (subj x, pred x) = k) ts.

(** The number of objects a mapping lists, over all its keys. *)
Definition mapping_size (m : gmap (Z * Z) (list Z)) : nat :=
  map_fold (fun _ l n => (length l + n)%nat) 0%nat m.

(** The batches cut from the rows of a dataset and of a matrix:
    [(i * batch_size):((i + 1) * batch_size)] of both, for [i] in
    [range(count)]. *)
Definition sliced_batches (ts : list triple) (onehot : matrix)
    (batch_size count : Z) : list batch :=
  (fun i : nat =>
     (py_slice ts (Z.of_nat i * batch_size) ((Z.of_nat i + 1) * batch_size),
      py_slice onehot (Z.of_nat i * batch_size) ((Z.of_nat i + 1) * batch_size)))
    <$> seq 0 (Z.to_nat count).

(** The exception a request with [use_filter=True] ends with while no
    filter is registered, by its cause. *)
Definition missing_filter_error (registered : bool) (batches_count : Z) : exn :=
  if negb registered then KeyError
  else if batches_count =? 0 then ZeroDivisionError
  else ValueError.

(** The assignments [set_data] has made once the entries [items] of a dict
    have all passed validation. *)
Definition assign_all (b : NumpyDatasetAdapter) (items : list (string * pyvalue))
    (mapped : bool) : NumpyDatasetAdapter :=
  foldl (fun b' kv => assign_dataset b' kv.1 kv.2 mapped) b items.

(** Every object index of the mapping is a valid column of a row of
    width [width]. *)
Definition indices_in_range (width : nat) (d : gmap (Z * Z) (list Z)) : Prop :=
  map_Forall (fun _ l => Forall (fun i => is_Some (np_index width i)) l) d.

(** The number of chunks of [c] entities that cover [len] entities. *)
Definition chunk_count (len c : nat) : nat := ((len + c - 1) / c)%nat.

(** The one-hot rows of [out], when no row raises. *)
Definition onehot_of (width : nat) (d : gmap (Z * Z) (list Z)) (out : list triple)
  : matrix :=
  match onehot_batch width (Some d) out with
  | Return m => m
  | Raise _ => []
  end.

(** The [j]-th batch of subject corruptions for the relation [rel]: the
    [j]-th chunk of [c] entities as subjects, [0] as object. *)
Definition corruption_item (d : gmap (Z * Z) (list Z)) (ent_list : list Z)
    (c : nat) (rel : Z) (test_triples : list triple) (j : nat) : corruption_batch :=
  let out := (fun e => (e, rel, 0)) <$> take c (drop (j * c) ent_list) in
  (test_triples, out, onehot_of (length ent_list) d out).

(** All the batches of subject corruptions, relation after relation. *)
Definition corruption_items (d : gmap (Z * Z) (list Z)) (ent_list : list Z)
    (c : nat) (ts : list triple) (rel_list : list Z) : list corruption_batch :=
  concat ((fun rel =>
             corruption_item d ent_list c rel (filter (fun x => pred x = rel) ts)
               <$> seq 0 (chunk_count (length ent_list) c)) <$> rel_list).

(** ** A small knowledge graph: entities 0, 1, 2 and one relation 0 *)

Definition kg_base : NumpyDatasetAdapter :=
  {| dataset := ∅;
     mapped_status := ∅;
     ent_to_idx := [("a", 0); ("b", 1); ("c", 2)]%string;
     rel_to_idx := [("r", 0)]%string |}.

(** [np.array(rows)] for rows of three cells. *)
Definition array3 (rows : list (list Z)) : pyvalue := PyNdarray (Array2 3 rows).

Definition kg_train : list (list Z) := [[0; 0; 1]; [0; 0; 2]; [1; 0; 2]].

Definition kg_train_triples : list triple := [(0, 0, 1); (0, 0, 2); (1, 0, 2)].

(** A dict of two datasets whose second entry has two columns. *)
Definition kg_bad_bundle : pyobj :=
  PyDict [("train"%string, array3 kg_train);
          ("test"%string, PyNdarray (Array2 2 [[0; 0]; [1; 0]]))].

(** [set_data(train, 'train', mapped_status=True)] on a fresh adapter. *)
Definition kg_with_train (low_mem : bool) : OneToNDatasetAdapter :=
  (set_data mark_mapped (init kg_base low_mem) (PyValue (array3 kg_train))
            (Some "train"%string) true).2.

(** ... followed by [set_output_mapping(generate_output_mapping('train'))]. *)
Definition kg_ready (low_mem : bool) : OneToNDatasetAdapter :=
  let a := kg_with_train low_mem in
  match generate_output_mapping mark_mapped a "train" with
  | (Return m, a1) => set_output_mapping a1 m
  | (Raise _, a1) => a1
  end.

(** The filter of the examples: the training triples and [(1, 0, 0)]. *)
Definition kg_filter : list (list Z) := kg_train ++ [[1; 0; 0]].

(** [kg_ready], then [set_filter(kg_filter, mapped_status=True)]. *)
Definition kg_filtered (low_mem : bool) : OneToNDatasetAdapter :=
  (set_filter mark_mapped (kg_ready low_mem) (PyValue (array3 kg_filter)) true).2.

(** ... then one full pass of [get_next_batch(1, 'train', use_filter=True)]. *)
Definition kg_after_filtered_pass : OneToNDatasetAdapter :=
  (get_next_batch mark_mapped (kg_filtered false) 1 "train" true).2.

(** The same calls as for [kg_after_filtered_pass], on an adapter built
    with [low_memory=True]. *)
Definition kg_after_filtered_pass_low_memory : OneToNDatasetAdapter :=
  (get_next_batch mark_mapped (kg_filtered true) 1 "train" true).2.

(** ... then [set_filter(kg_train, mapped_status=True)]: a new filter. *)
Definition kg_refiltered : OneToNDatasetAdapter :=
  (set_filter mark_mapped kg_after_filtered_pass (PyValue (array3 kg_train)) true).2.

(** [kg_filtered] with a test set of one triple. *)
Definition kg_with_test : OneToNDatasetAdapter :=
  (set_data mark_mapped (kg_filtered false) (PyValue (array3 [[0; 0; 1]]))
            (Some "test"%string) true).2.

(** [kg_filtered] with an empty test set. *)
Definition kg_with_empty_test : OneToNDatasetAdapter :=
  (set_data mark_mapped (kg_filtered false) (PyValue (array3 []))
            (Some "test"%string) true).2.

(** Five training triples, with the output mapping made from them. *)
Definition kg_five : OneToNDatasetAdapter :=
  let a := (set_data mark_mapped (init kg_base false)
              (PyValue (array3 [[0; 0; 1]; [0; 0; 2]; [1; 0; 2]; [2; 0; 0]; [2; 0; 1]]))
              (Some "train"%string) true).2 in
  match generate_output_mapping mark_mapped a "train" with
  | (Return m, a1) => set_output_mapping a1 m
  | (Raise _, a1) => a1
  end.

(** Training triples given as mapped, one of which names an object index,
    3, outside the vocabulary of three entities; the output mapping is made
    from them. *)
Definition kg_out_of_vocabulary (low_mem : bool) : OneToNDatasetAdapter :=
  let a := (set_data mark_mapped (init kg_base low_mem)
              (PyValue (array3 [[0; 0; 1]; [1; 0; 3]]))
              (Some "train"%string) true).2 in
  match generate_output_mapping mark_mapped a "train" with
  | (Return m, a1) => set_output_mapping a1 m
  | (Raise _, a1) => a1
  end.

(** The graph with a second relation, 1, that no triple uses. *)
Definition kg_two_relations : OneToNDatasetAdapter :=
  let b := {| dataset := ∅;
              mapped_status := ∅;
              ent_to_idx := [("a", 0); ("b", 1); ("c", 2)]%string;
              rel_to_idx := [("r", 0); ("q", 1)]%string |} in
  let a := (set_data mark_mapped (init b false) (PyValue (array3 kg_train))
              (Some "train"%string) true).2 in
  (set_filter mark_mapped a (PyValue (array3 kg_train)) true).2.





(** ** Slices *)

Lemma clamp_nonneg (len i : Z) : 0 <= i -> clamp len i = Z.min i len.
Proof. intros Hi. unfold clamp. destruct (Z.ltb_spec i 0); [lia | done]. Qed.

(** With bounds that are not negative a slice is a [take] of a [drop]. *)
Lemma py_slice_nonneg {A : Type} (l : list A) (lo hi : Z) :
  0 <= lo -> 0 <= hi ->
  py_slice l lo hi = take (Z.to_nat hi - Z.to_nat lo) (drop (Z.to_nat lo) l).
Proof.
  intros Hlo Hhi. unfold py_slice. rewrite !clamp_nonneg by done.
  destruct (Z.le_gt_cases (Z.of_nat (length l)) lo) as [Hge | Hlt].
  - rewrite !drop_ge by lia. by rewrite !take_nil.
  - rewrite (Z.min_l lo) by lia.
    destruct (Z.le_gt_cases hi (Z.of_nat (length l))) as [Hle | Hgt].
    + rewrite Z.min_l by lia. f_equal. lia.
    + rewrite Z.min_r by lia. rewrite !take_ge; [done | | ]; rewrite length_drop; lia.
Qed.

(** The [i]-th slice of width [c]. *)
Lemma py_slice_chunk {A : Type} (l : list A) (c : Z) (i : nat) :
  0 <= c ->
  py_slice l (Z.of_nat i * c) ((Z.of_nat i + 1) * c)
  = take (Z.to_nat c) (drop (i * Z.to_nat c) l).
Proof.
  intros Hc. rewrite py_slice_nonneg by nia.
  f_equal; [ | f_equal]; nia.
Qed.

Lemma concat_chunks {A : Type} (l : list A) (c k : nat) :
  concat ((fun i => take c (drop (i * c) l)) <$> seq 0 k) = take (k * c) l.
Proof.
  induction k as [ | k IH]; [done | ].
  rewrite seq_S, fmap_app, concat_app, IH. simpl.
  rewrite app_nil_r, take_take_drop. f_equal. lia.
Qed.

Lemma length_chunk {A : Type} (l : list A) (c i : nat) :
  length (take c (drop (i * c) l)) = (c `min` (length l - i * c))%nat.
Proof. by rewrite length_take, length_drop. Qed.

Lemma ceil_div_covers (n k : Z) : 0 < k -> n <= ceil_div n k * k.
Proof.
  intros Hk. unfold ceil_div.
  pose proof (Z.mul_div_le (- n) k Hk). nia.
Qed.

Lemma ceil_div_nonneg (n k : Z) : 0 <= n -> 0 < k -> 0 <= ceil_div n k.
Proof.
  intros Hn Hk. unfold ceil_div.
  assert (- n / k <= 0) by (apply Z.div_le_upper_bound; lia). lia.
Qed.

Lemma int32_fits (z : Z) : fits_int32 z = true -> int32 z = z.
Proof.
  unfold fits_int32, int32. intros H.
  apply andb_true_iff in H as [H1 H2].
  apply Z.leb_le in H1. apply Z.ltb_lt in H2.
  rewrite Z.mod_small by lia. lia.
Qed.

Lemma int32_triple_fits (x : triple) :
  triple_fits_int32 x = true -> int32_triple x = x.
Proof.
  destruct x as [[s p] o]. unfold triple_fits_int32, int32_triple. simpl.
  intros H. apply andb_true_iff in H as [H H3]. apply andb_true_iff in H as [H1 H2].
  by rewrite !int32_fits.
Qed.

Lemma int32_triples_fit (ts : list triple) :
  forallb triple_fits_int32 ts = true -> int32_triple <$> ts = ts.
Proof.
  induction ts as [ | x ts IH]; [done | ].
  simpl forallb. intros H. apply andb_true_iff in H as [Hx Hts].
  by rewrite fmap_cons, int32_triple_fits, IH.
Qed.

(** ** The output mapping *)

Lemma foldl_setdefault_append_lookup (ts : list triple)
    (m : gmap (Z * Z) (list Z)) (k : Z * Z) :
  foldl setdefault_append m ts !! k
  = match objects_of k ts with
    | [] => m !! k
    | l => Some (default [] (m !! k) ++ l)
    end.
Proof.
  revert m. induction ts as [ | x ts IH]; intros m; [done | ].
  simpl. rewrite IH. unfold objects_of, setdefault_append.
  destruct (decide ((subj x, pred x) = k)) as [Heq | Hne].
  - rewrite filter_cons_True by done. rewrite fmap_cons.
    rewrite Heq, lookup_insert_eq. simpl.
    destruct (obj <$> filter _ ts) as [ | o l]; [done | ].
    by rewrite <- app_assoc.
  - rewrite filter_cons_False by done.
    by rewrite lookup_insert_ne.
Qed.

Lemma group_objects_lookup (ts : list triple) (k : Z * Z) :
  group_objects ts !! k
  = match objects_of k ts with
    | [] => None
    | l => Some l
    end.
Proof.
  unfold group_objects. rewrite foldl_setdefault_append_lookup.
  rewrite lookup_empty. by destruct (objects_of k ts).
Qed.

Lemma objects_of_elem (ts : list triple) (s p o : Z) :
  (s, p, o) ∈ ts -> o ∈ objects_of (s, p) ts.
Proof.
  intros Hin. unfold objects_of.
  apply (list_elem_of_fmap_2 obj _ (s, p, o)).
  by apply list_elem_of_filter.
Qed.

(** C6: for a mapped dataset, [generate_output_mapping] returns a dict in
    which the key [(s, p)] of every row [(s, p, o)] is bound to the objects
    of all the rows with that key, in the order of the rows and with
    repetitions kept; in particular [o] is in that list.  The adapter is
    left as it was. *)
Theorem generate_output_mapping_groups_objects
    (map_data : NumpyDatasetAdapter -> NumpyDatasetAdapter)
    (a : OneToNDatasetAdapter) (name : string) (ts : list triple) (s p o : Z) :
  mapped_status (base a) !! name = Some true ->
  dataset (base a) !! name = Some ts ->
  (s, p, o) ∈ ts ->
  exists m : gmap (Z * Z) (list Z),
    generate_output_mapping map_data a name = (Return m, a) /\
    m !! (s, p) = Some (objects_of (s, p) ts) /\
    o ∈ objects_of (s, p) ts.
Proof.
  intros Hmapped Hdata Hin.
  exists (group_objects ts). split; [ | split].
  - unfold generate_output_mapping, ensure_mapped. by rewrite Hmapped, Hdata.
  - rewrite group_objects_lookup.
    pose proof (objects_of_elem ts s p o Hin) as Ho.
    destruct (objects_of (s, p) ts); [by apply elem_of_nil in Ho | done].
  - by apply objects_of_elem.
Qed.

Lemma generate_output_mapping_groups_objects_witness :
  exists m : gmap (Z * Z) (list Z),
    generate_output_mapping mark_mapped (kg_with_train false) "train"
      = (Return m, kg_with_train false) /\
    m !! (0, 0) = Some [1; 2] /\
    2 ∈ [1; 2].
Proof.
  apply (generate_output_mapping_groups_objects mark_mapped (kg_with_train false)
           "train" kg_train_triples 0 0 2).
  - vm_compute. reflexivity.
  - vm_compute. reflexivity.
  - unfold kg_train_triples. apply list_elem_of_In. simpl. tauto.
Defined.

(** ** Validation in [set_data] *)

Lemma set_data_items_stops (b : NumpyDatasetAdapter)
    (pre post : list (string * pyvalue)) (key : string) (bad : pyvalue)
    (mapped : bool) (e : exn) :
  Forall (fun kv => _validate_data kv.2 = Return tt) pre ->
  _validate_data bad = Raise e ->
  set_data_items b (pre ++ (key, bad) :: post) mapped
  = (Raise e, assign_all b pre mapped).
Proof.
  intros Hpre Hbad. revert b.
  induction Hpre as [ | [k v] pre Hv Hpre IH]; intros b; simpl.
  - by rewrite Hbad.
  - simpl in Hv. rewrite Hv. apply IH.
Qed.

(** C9, as the code has it: when an array fails validation, the call of
    [set_data] with that array and a dataset name raises and leaves the
    adapter unchanged; the call with a dict raises at the first malformed
    entry, when the entries before it, in key order, are already stored
    with their mapped status, and neither that entry nor a later one is. *)
Theorem set_data_failure_keeps_validated_prefix
    (map_data : NumpyDatasetAdapter -> NumpyDatasetAdapter)
    (a : OneToNDatasetAdapter) (pre post : list (string * pyvalue))
    (key : string) (bad : pyvalue) (dataset_type : option string)
    (mapped : bool) (e : exn) :
  Forall (fun kv => _validate_data kv.2 = Return tt) pre ->
  _validate_data bad = Raise e ->
  set_data map_data a (PyValue bad) (Some key) mapped = (Raise e, a) /\
  set_data map_data a (PyDict (pre ++ (key, bad) :: post)) dataset_type mapped
  = (Raise e, with_base a (assign_all (base a) pre mapped)).
Proof.
  intros Hpre Hbad. split.
  - unfold set_data. by rewrite Hbad.
  - unfold set_data. by rewrite (set_data_items_stops _ _ _ _ _ _ e).
Qed.

Lemma set_data_failure_keeps_validated_prefix_witness :
  set_data mark_mapped (init kg_base false)
           (PyValue (PyNdarray (Array2 2 [[0; 0]; [1; 0]]))) (Some "test"%string) false
  = (Raise ValueError, init kg_base false) /\
  set_data mark_mapped (init kg_base false) kg_bad_bundle None false
  = (Raise ValueError,
     with_base (init kg_base false)
       (assign_all (base (init kg_base false))
                   [("train"%string, array3 kg_train)] false)).
Proof.
  apply (set_data_failure_keeps_validated_prefix mark_mapped (init kg_base false)
           [("train"%string, array3 kg_train)] [] "test"
           (PyNdarray (Array2 2 [[0; 0]; [1; 0]])) None false ValueError).
  - repeat constructor.
  - reflexivity.
Defined.

(** C9, as stated, fails: a dict whose second entry has two columns makes
    [set_data] raise, yet the first entry has been stored and flagged. *)
Lemma set_data_bundle_partial_mutation :
  let a := init kg_base false in
  let r := set_data mark_mapped a kg_bad_bundle None false in
  r.1 = Raise ValueError /\
  dataset (base a) !! "train"%string = None /\
  mapped_status (base a) !! "train"%string = None /\
  dataset (base r.2) !! "train"%string = Some kg_train_triples /\
  mapped_status (base r.2) !! "train"%string = Some false.
Proof. vm_compute. repeat split; reflexivity. Qed.

(** ** Missing mappings *)

Lemma onehot_batch_None (width : nat) (x : triple) (out : list triple) :
  onehot_batch width None (x :: out) = Raise AttributeError.
Proof. reflexivity. Qed.



(** ** The eager path on a cache miss *)

(** The loop that fills the cached matrix runs to its end exactly when
    the per-batch loop over the whole dataset does, with the same rows. *)
Lemma fill_onehot_spec (width : nat) (d : gmap (Z * Z) (list Z)) (ts : list triple) :
  match onehot_batch width (Some d) ts with
  | Return m => fill_onehot width d ts = (m, true)
  | Raise _ => (fill_onehot width d ts).2 = false
  end.
Proof.
  induction ts as [ | x ts IH]; [done | ].
  cbn [onehot_batch fill_onehot].
  destruct (onehot_row width (Some d) x) as [r | e]; [ | done].
  destruct (onehot_batch width (Some d) ts) as [m | e].
  - by rewrite IH.
  - destruct (fill_onehot width d ts) as [m ok]. simpl in *. by subst.
Qed.

Lemma fill_onehot_true (width : nat) (d : gmap (Z * Z) (list Z))
    (ts : list triple) (m : matrix) :
  fill_onehot width d ts = (m, true) -> onehot_batch width (Some d) ts = Return m.
Proof.
  intros H. pose proof (fill_onehot_spec width d ts) as Hs.
  destruct (onehot_batch width (Some d) ts) as [m' | e].
  - rewrite H in Hs. by inversion Hs.
  - by rewrite H in Hs.
Qed.

Lemma ensure_mapped_fields (map_data : NumpyDatasetAdapter -> NumpyDatasetAdapter)
    (a a1 : OneToNDatasetAdapter) (name : string) (r : outcome unit) :
  ensure_mapped map_data a name = (r, a1) ->
  filter_mapping a1 = filter_mapping a /\
  filtered_status a1 = filtered_status a /\
  output_mapping a1 = output_mapping a /\
  output_onehot a1 = output_onehot a /\
  low_memory a1 = low_memory a.
Proof.
  unfold ensure_mapped.
  destruct (mapped_status (base a) !! name) as [[ | ] | ];
    intros [= <- <-]; done.
Qed.

(** In eager mode, when the cache has no entry for the dataset, a run of
    [get_next_batch] either raises before the first batch, or builds the
    matrix from the mapping the filter mode selects, stores it, and yields
    its slices. *)
Lemma get_next_batch_eager_miss
    (map_data : NumpyDatasetAdapter -> NumpyDatasetAdapter)
    (a : OneToNDatasetAdapter) (k : Z) (name : string) (use_filter : bool)
    (ys : list batch) (e : ending) (a' : OneToNDatasetAdapter) :
  low_memory a = false ->
  output_onehot a !! name = None ->
  get_next_batch map_data a k name use_filter = (ys, e, a') ->
  (e <> Exhausted /\ ys = []) \/
  (e = Exhausted /\
   exists (ts : list triple) (sel : gmap (Z * Z) (list Z)) (m : matrix)
          (batch_size count : Z),
     ensure_mapped map_data a name = (Return tt, with_base a (base a')) /\
     dataset (base a') !! name = Some ts /\
     batch_plan (Z.of_nat (length ts)) k = Return (batch_size, count) /\
     (if use_filter then filter_mapping a else output_mapping a) = Some sel /\
     onehot_batch (length (ent_to_idx (base a'))) (Some sel) ts = Return m /\
     output_onehot a' !! name = Some m /\
     filtered_status a' !! name = Some use_filter /\
     ys = eager_batches ts m batch_size count).
Proof.
  intros Hlm Hmiss. unfold get_next_batch.
  destruct (ensure_mapped map_data a name) as [r a1] eqn:Hens.
  destruct (ensure_mapped_fields _ _ _ _ _ Hens) as (Hfm & Hfs & Hom & Hoo & Hl).
  destruct r as [[] | e1]; [ | intros [= <- <- <-]; by left].
  destruct (dataset (base a1) !! name) as [ts | ] eqn:Hdata;
    [ | intros [= <- <- <-]; by left].
  destruct (batch_plan (Z.of_nat (length ts)) k) as [[batch_size count] | e1] eqn:Hplan;
    [ | intros [= <- <- <-]; by left].
  destruct (use_filter && is_None (filter_mapping a1)) eqn:Hguard;
    [intros [= <- <- <-]; by left | ].
  rewrite Hl, Hlm. cbn [negb].
  unfold needs_rebuild. rewrite Hoo, Hmiss.
  unfold generate_onehot_outputs. rewrite Hdata.
  unfold resolve_mapping. rewrite Hfm, Hom.
  destruct (if use_filter then filter_mapping a else output_mapping a)
    as [sel | ] eqn:Hsel; [ | intros [= <- <- <-]; by left].
  rewrite Hl, Hlm.
  destruct (fill_onehot (length (ent_to_idx (base a1))) sel ts) as [m ok] eqn:Hfill.
  destruct ok; [ | intros [= <- <- <-]; by left].
  cbn [output_onehot]. rewrite lookup_insert_eq.
  intros [= <- <- <-]. right. split; [done | ].
  exists ts, sel, m, batch_size, count. cbn.
  rewrite lookup_insert_eq.
  repeat split; try done.
  - f_equal. destruct a, a1. cbn in *. by subst.
  - by apply fill_onehot_true.
  - apply lookup_insert_eq.
Qed.



(** ** Stale caches in eager mode *)

(** A request without filter never rebuilds a matrix that is cached,
    whatever the flag it was built with. *)
Lemma needs_rebuild_unfiltered (a : OneToNDatasetAdapter) (name : string)
    (m : matrix) :
  output_onehot a !! name = Some m -> needs_rebuild a name false = Return false.
Proof. intros H. unfold needs_rebuild. by rewrite H. Qed.

(** [set_filter] changes neither the cache nor its flags. *)
Lemma set_filter_keeps_cache (map_data : NumpyDatasetAdapter -> NumpyDatasetAdapter)
    (a a' : OneToNDatasetAdapter) (filter_triples : pyobj) (mapped : bool)
    (r : outcome unit) :
  set_filter map_data a filter_triples mapped = (r, a') ->
  output_onehot a' = output_onehot a /\ filtered_status a' = filtered_status a.
Proof.
  unfold set_filter.
  destruct (set_data map_data a filter_triples (Some "filter"%string) mapped)
    as [r1 a1] eqn:Hset.
  assert (H1 : output_onehot a1 = output_onehot a /\
               filtered_status a1 = filtered_status a).
  { unfold set_data in Hset. destruct filter_triples as [items | v].
    - destruct (set_data_items (base a) items mapped) as [[[] | e] b];
        by injection Hset as <- <-.
    - destruct (_validate_data v); by injection Hset as <- <-. }
  destruct H1 as [Ho Hf].
  destruct r1 as [[] | e]; [ | by intros [= <- <-]].
  unfold generate_output_mapping.
  destruct (ensure_mapped map_data a1 "filter") as [r2 a2] eqn:Hens.
  destruct (ensure_mapped_fields _ _ _ _ _ Hens) as (_ & Hf2 & _ & Ho2 & _).
  destruct r2 as [[] | e]; [ | intros [= <- <-]; by rewrite Ho2, Hf2].
  destruct (dataset (base a2) !! "filter"%string);
    intros [= <- <-]; cbn; by rewrite Ho2, Hf2.
Qed.

(** C2 at a failing input: after a pass with [use_filter=True] the cache
    of ['train'] is flagged as filtered; a request with [use_filter=False]
    is served that matrix as it is, although the output mapping gives the
    third row another value. *)
Theorem unfiltered_request_serves_filtered_cache :
  filtered_status kg_after_filtered_pass !! "train"%string = Some true /\
  (get_next_batch mark_mapped kg_after_filtered_pass 1 "train" false).1
  = ([(kg_train_triples, [[0; 1; 1]; [0; 1; 1]; [1; 0; 1]])], Exhausted) /\
  onehot_batch 3 (output_mapping kg_after_filtered_pass) kg_train_triples
  = Return [[0; 1; 1]; [0; 1; 1]; [0; 0; 1]].
Proof. vm_compute. repeat split; reflexivity. Qed.

(** C4 at a failing input: a second [set_filter] installs a new filter
    mapping and keeps the cache; the next request with [use_filter=True]
    yields the matrix built from the previous filter. *)
Theorem set_filter_keeps_onehot_cache :
  filter_mapping kg_refiltered = Some (group_objects kg_train_triples) /\
  output_onehot kg_refiltered = output_onehot kg_after_filtered_pass /\
  (get_next_batch mark_mapped kg_refiltered 1 "train" true).1
  = ([(kg_train_triples, [[0; 1; 1]; [0; 1; 1]; [1; 0; 1]])], Exhausted) /\
  onehot_batch 3 (filter_mapping kg_refiltered) kg_train_triples
  = Return [[0; 1; 1]; [0; 1; 1]; [0; 0; 1]].
Proof. vm_compute. repeat split; reflexivity. Qed.

(** ** The default batch size of the corruption generator *)

(** C7 at a failing input: with three entities, one relation and a test
    set of one triple, the default [batch_size] is the size of the test
    set, and the entities come in three batches of one. *)
Theorem default_corruption_batch_is_dataset_size :
  get_next_batch_subject_corruptions 10 kg_with_test (-1) "test" true
  = ([([(0, 0, 1)], [(0, 0, 0)], [[0; 1; 1]]);
      ([(0, 0, 1)], [(1, 0, 0)], [[1; 0; 1]]);
      ([(0, 0, 1)], [(2, 0, 0)], [[0; 0; 0]])], Exhausted).
Proof. vm_compute. reflexivity. Qed.

(** A batch size of zero: every pull yields an empty batch and the loop
    over the entities makes no progress. *)
Lemma corruption_chunks_zero_batch (pulls : nat)
    (d : option (gmap (Z * Z) (list Z))) (ent : Z) (ents : list Z) (rel : Z)
    (test : list triple) :
  corruption_chunks pulls d (ent :: ents) 0 rel test 0
  = (replicate pulls (test, [], []), Suspended, O).
Proof.
  induction pulls as [ | pulls IH]; [reflexivity | ].
  cbn [corruption_chunks].
  replace (0 <? Z.of_nat (length (ent :: ents))) with true
    by (symmetry; apply Z.ltb_lt; simpl; lia).
  cbn [negb]. replace (0 + 0) with 0 by lia.
  rewrite py_slice_nonneg by lia. cbn [Z.to_nat Nat.sub take fmap list_fmap onehot_batch].
  by rewrite IH.
Qed.

(** With an empty test set the default batch size is zero: the generator
    never leaves the first relation. *)
Lemma default_corruption_batch_empty_dataset (pulls : nat) :
  get_next_batch_subject_corruptions pulls kg_with_empty_test (-1) "test" true
  = (replicate pulls ([], [], []), Suspended).
Proof.
  unfold get_next_batch_subject_corruptions.
  replace (dataset (base kg_with_empty_test) !! "test"%string)
    with (Some ([] : list triple)) by (vm_compute; reflexivity).
  replace (get_size kg_with_empty_test "test") with (Return 0)
    by (vm_compute; reflexivity).
  replace ((ent_to_idx (base kg_with_empty_test)).*2) with [0; 1; 2]
    by (vm_compute; reflexivity).
  replace ((rel_to_idx (base kg_with_empty_test)).*2) with [0]
    by (vm_compute; reflexivity).
  cbn [Z.eqb Pos.eqb corruption_relations filter list_filter].
  by rewrite corruption_chunks_zero_batch.
Qed.

(** ** Batch partitioning *)

Lemma concat_fmap_fmap {A B : Type} (f : A -> B) (ls : list (list A)) :
  concat (fmap (M := list) f <$> ls) = f <$> concat ls.
Proof.
  induction ls as [ | l ls IH]; [done | ].
  rewrite fmap_cons. simpl. by rewrite fmap_app, IH.
Qed.

Lemma triples_slice_chunk (ts : list triple) (c : Z) (i : nat) :
  0 <= c ->
  triples_slice ts c i
  = int32_triple <$> take (Z.to_nat c) (drop (i * Z.to_nat c) ts).
Proof. intros Hc. unfold triples_slice. by rewrite py_slice_chunk. Qed.

Lemma lazy_batches_triples (width : nat) (d : option (gmap (Z * Z) (list Z)))
    (ts : list triple) (batch_size : Z) (idxs : list nat) (ys : list batch) :
  lazy_batches width d ts batch_size idxs = (ys, Exhausted) ->
  ys.*1 = triples_slice ts batch_size <$> idxs.
Proof.
  revert ys. induction idxs as [ | i idxs IH]; intros ys; simpl.
  - by intros [= <-].
  - destruct (onehot_batch width d (triples_slice ts batch_size i)) as [oh | e];
      [ | done].
    destruct (lazy_batches width d ts batch_size idxs) as [ys' e'].
    intros [= <- ->]. rewrite fmap_cons. simpl. f_equal. by apply IH.
Qed.

Lemma eager_batches_triples (ts : list triple) (m : matrix) (batch_size count : Z) :
  (eager_batches ts m batch_size count).*1
  = triples_slice ts batch_size <$> seq 0 (Z.to_nat count).
Proof.
  unfold eager_batches. rewrite <- list_fmap_compose. done.
Qed.

Lemma generate_onehot_outputs_base (a a' : OneToNDatasetAdapter) (name : string)
    (use_filter : bool) (r : outcome unit) :
  generate_onehot_outputs a name use_filter = (r, a') -> base a' = base a.
Proof.
  unfold generate_onehot_outputs.
  destruct (dataset (base a) !! name); [ | by intros [= <- <-]].
  destruct (resolve_mapping a use_filter); [ | by intros [= <- <-]].
  destruct (low_memory a); [by intros [= <- <-] | ].
  destruct (fill_onehot _ _ _) as [m [ | ]]; by intros [= <- <-].
Qed.

(** The triples of a run that ends well are the slices of the dataset the
    adapter holds, in both modes and whatever the cache holds. *)
Lemma get_next_batch_triples
    (map_data : NumpyDatasetAdapter -> NumpyDatasetAdapter)
    (a : OneToNDatasetAdapter) (k : Z) (name : string) (use_filter : bool)
    (ys : list batch) (a' : OneToNDatasetAdapter) :
  get_next_batch map_data a k name use_filter = (ys, Exhausted, a') ->
  exists (ts : list triple) (batch_size count : Z),
    dataset (base a') !! name = Some ts /\
    batch_plan (Z.of_nat (length ts)) k = Return (batch_size, count) /\
    ys.*1 = triples_slice ts batch_size <$> seq 0 (Z.to_nat count).
Proof.
  unfold get_next_batch.
  destruct (ensure_mapped map_data a name) as [[[] | e1] a1]; [ | done].
  destruct (dataset (base a1) !! name) as [ts | ] eqn:Hdata; [ | done].
  destruct (batch_plan (Z.of_nat (length ts)) k) as [[batch_size count] | e1] eqn:Hplan;
    [ | done].
  destruct (use_filter && is_None (filter_mapping a1)); [done | ].
  destruct (low_memory a1); cbn [negb].
  - destruct (lazy_batches _ _ ts batch_size _) as [ys' e'] eqn:Hlazy.
    intros [= <- -> <-]. exists ts, batch_size, count.
    split; [done | split; [done | ]]. by eapply lazy_batches_triples.
  - destruct (match needs_rebuild a1 name use_filter with
              | Return true => generate_onehot_outputs a1 name use_filter
              | Return false => (Return (), a1)
              | Raise e => (Raise e, a1)
              end) as [[[] | e2] a2] eqn:Hreb; [ | done].
    assert (Hbase : base a2 = base a1).
    { destruct (needs_rebuild a1 name use_filter) as [[ | ] | e3].
      - by eapply generate_onehot_outputs_base.
      - by inversion Hreb.
      - by inversion Hreb. }
    destruct (output_onehot a2 !! name) as [m | ]; [ | done].
    intros [= <- <-]. exists ts, batch_size, count.
    rewrite Hbase. split; [done | split; [done | ]].
    apply eager_batches_triples.
Qed.

(** C5, as the code has it: for [k > 1] batches over a dataset of [n] rows,
    a run that ends well yields [k] batches; with [c = ceil(n / k)], batch
    [i] holds [min c (n - i * c)] rows (full batches, then at most one
    shorter batch, then empty ones); the triples of the batches, in yield
    order, are the dataset through [np.int32], hence the dataset itself
    when its indices fit in 32 bits. *)
Theorem get_next_batch_partitions_dataset
    (map_data : NumpyDatasetAdapter -> NumpyDatasetAdapter)
    (a : OneToNDatasetAdapter) (k : Z) (name : string) (use_filter : bool)
    (ys : list batch) (a' : OneToNDatasetAdapter) :
  1 < k ->
  get_next_batch map_data a k name use_filter = (ys, Exhausted, a') ->
  exists ts : list triple,
    dataset (base a') !! name = Some ts /\
    length ys = Z.to_nat k /\
    (forall (i : nat) (y : batch),
       ys !! i = Some y ->
       length y.1
       = (Z.to_nat (ceil_div (Z.of_nat (length ts)) k)
          `min` (length ts - i * Z.to_nat (ceil_div (Z.of_nat (length ts)) k)))%nat) /\
    concat ys.*1 = int32_triple <$> ts /\
    (forallb triple_fits_int32 ts = true -> concat ys.*1 = ts).
Proof.
  intros Hk Hrun.
  destruct (get_next_batch_triples _ _ _ _ _ _ _ Hrun)
    as (ts & batch_size & count & Hdata & Hplan & Hys).
  exists ts. split; [done | ].
  unfold batch_plan in Hplan.
  destruct (Z.eqb_spec k (-1)) as [ | _]; [lia | ].
  destruct (Z.eqb_spec k 0) as [ | _]; [lia | ].
  injection Hplan as <- <-.
  set (n := length ts) in *.
  set (c := ceil_div (Z.of_nat n) k) in *.
  assert (Hc : 0 <= c) by (apply ceil_div_nonneg; lia).
  assert (Hcover : Z.of_nat n <= c * k) by (apply ceil_div_covers; lia).
  assert (Hyc : ys.*1
                = fmap (M := list) int32_triple
                    <$> ((fun i => take (Z.to_nat c) (drop (i * Z.to_nat c) ts))
                           <$> seq 0 (Z.to_nat k))).
  { rewrite Hys, <- list_fmap_compose. apply list_fmap_ext.
    intros i j _. simpl. by apply triples_slice_chunk. }
  assert (Hconcat : concat ys.*1 = int32_triple <$> ts).
  { rewrite Hyc, concat_fmap_fmap, concat_chunks.
    rewrite take_ge; [done | ]. fold n. nia. }
  split; [ | split; [ | split]].
  - transitivity (length ys.*1); [by rewrite length_fmap | ].
    by rewrite Hys, length_fmap, length_seq.
  - intros i y Hy.
    pose proof (list_lookup_fmap_Some_2 fst ys i y Hy) as Hy1.
    rewrite Hys, list_lookup_fmap in Hy1.
    destruct (seq 0 (Z.to_nat k) !! i) as [j | ] eqn:Hj; [ | done].
    apply lookup_seq in Hj as [-> _]. simpl in Hy1. injection Hy1 as <-.
    rewrite triples_slice_chunk by done.
    rewrite length_fmap, length_chunk. done.
  - done.
  - intros Hfit. by rewrite Hconcat, int32_triples_fit.
Qed.

Lemma get_next_batch_partitions_dataset_witness :
  exists ts : list triple,
    dataset (base (get_next_batch mark_mapped kg_five 4 "train" false).2) !! "train"%string
    = Some ts /\
    length (get_next_batch mark_mapped kg_five 4 "train" false).1.1 = 4%nat /\
    concat (get_next_batch mark_mapped kg_five 4 "train" false).1.1.*1
    = int32_triple <$> ts.
Proof.
  destruct (get_next_batch_partitions_dataset mark_mapped kg_five 4 "train" false
              (get_next_batch mark_mapped kg_five 4 "train" false).1.1
              (get_next_batch mark_mapped kg_five 4 "train" false).2)
    as (ts & Hd & Hl & _ & Hc & _).
  - lia.
  - vm_compute. reflexivity.
  - exists ts. repeat split; assumption.
Defined.

(** C5, as stated, fails: five rows in four batches give [ceil(5 / 4) = 2]
    and batches of 2, 2, 1 and 0 rows; the third batch is short although
    it is not the last. *)
Lemma five_rows_in_four_batches :
  let run := get_next_batch mark_mapped kg_five 4 "train" false in
  run.1.2 = Exhausted /\
  (fun y : batch => length y.1) <$> run.1.1 = [2; 2; 1; 0]%nat /\
  ~ (forall (i : nat) (y : batch),
       (i < length run.1.1 - 1)%nat ->
       run.1.1 !! i = Some y ->
       length y.1 = Z.to_nat (ceil_div 5 4)).
Proof.
  split; [vm_compute; reflexivity | ].
  split; [vm_compute; reflexivity | ].
  intros H.
  specialize (H 2%nat ([(2, 0, 1)], [[1; 1; 0]])).
  assert (Hlen : length [(2, 0, 1)] = Z.to_nat (ceil_div 5 4)).
  { apply H; vm_compute; [lia | reflexivity]. }
  vm_compute in Hlen. discriminate.
Qed.

(** ** Eager and low-memory modes *)

Lemma onehot_batch_length (width : nat) (d : option (gmap (Z * Z) (list Z)))
    (ts : list triple) (m : matrix) :
  onehot_batch width d ts = Return m -> length m = length ts.
Proof.
  revert m. induction ts as [ | x ts IH]; intros m; simpl.
  - by intros [= <-].
  - destruct (onehot_row width d x); [ | done].
    destruct (onehot_batch width d ts) as [m' | ]; [ | done].
    intros [= <-]. simpl. f_equal. by apply IH.
Qed.

Lemma onehot_batch_take (width : nat) (d : option (gmap (Z * Z) (list Z)))
    (ts : list triple) (m : matrix) (n : nat) :
  onehot_batch width d ts = Return m ->
  onehot_batch width d (take n ts) = Return (take n m).
Proof.
  revert m n. induction ts as [ | x ts IH]; intros m n; simpl.
  - intros [= <-]. by destruct n.
  - destruct (onehot_row width d x) as [r | ] eqn:Hr; [ | done].
    destruct (onehot_batch width d ts) as [m' | ]; [ | done].
    intros [= <-]. destruct n as [ | n]; [done | ].
    simpl. by rewrite Hr, (IH m' n).
Qed.

Lemma onehot_batch_drop (width : nat) (d : option (gmap (Z * Z) (list Z)))
    (ts : list triple) (m : matrix) (n : nat) :
  onehot_batch width d ts = Return m ->
  onehot_batch width d (drop n ts) = Return (drop n m).
Proof.
  revert m n. induction ts as [ | x ts IH]; intros m n.
  - simpl. intros [= <-]. by destruct n.
  - destruct n as [ | n]; [done | ].
    simpl. destruct (onehot_row width d x) as [r | ]; [ | done].
    destruct (onehot_batch width d ts) as [m' | ]; [ | done].
    intros [= <-]. simpl. by apply IH.
Qed.

(** The rows computed for a slice of the dataset are the slice of the
    rows computed for the dataset. *)
Lemma onehot_batch_slice (width : nat) (d : option (gmap (Z * Z) (list Z)))
    (ts : list triple) (m : matrix) (lo hi : Z) :
  onehot_batch width d ts = Return m ->
  onehot_batch width d (py_slice ts lo hi) = Return (py_slice m lo hi).
Proof.
  intros H. unfold py_slice. rewrite (onehot_batch_length _ _ _ _ H).
  by apply onehot_batch_take, onehot_batch_drop.
Qed.

Lemma py_slice_fmap {A B : Type} (f : A -> B) (l : list A) (lo hi : Z) :
  py_slice (f <$> l) lo hi = f <$> py_slice l lo hi.
Proof. unfold py_slice. by rewrite length_fmap, fmap_take, fmap_drop. Qed.

Lemma triples_slice_fits (ts : list triple) (batch_size : Z) (i : nat) :
  forallb triple_fits_int32 ts = true ->
  triples_slice ts batch_size i
  = py_slice ts (Z.of_nat i * batch_size) ((Z.of_nat i + 1) * batch_size).
Proof.
  intros Hfit. unfold triples_slice.
  by rewrite <- py_slice_fmap, int32_triples_fit.
Qed.

Lemma lazy_batches_of_matrix (width : nat) (d : option (gmap (Z * Z) (list Z)))
    (ts : list triple) (m : matrix) (batch_size : Z) (idxs : list nat) :
  forallb triple_fits_int32 ts = true ->
  onehot_batch width d ts = Return m ->
  lazy_batches width d ts batch_size idxs
  = ((fun i => (triples_slice ts batch_size i,
                py_slice m (Z.of_nat i * batch_size)
                           ((Z.of_nat i + 1) * batch_size))) <$> idxs,
     Exhausted).
Proof.
  intros Hfit Hm. induction idxs as [ | i idxs IH]; [done | ].
  cbn [lazy_batches]. rewrite IH.
  rewrite (triples_slice_fits _ _ _ Hfit) at 1.
  by rewrite (onehot_batch_slice _ _ _ _ _ _ Hm).
Qed.

Lemma ensure_mapped_with_low_memory
    (map_data : NumpyDatasetAdapter -> NumpyDatasetAdapter)
    (a : OneToNDatasetAdapter) (name : string) (lm : bool) :
  ensure_mapped map_data (with_low_memory a lm) name
  = ((ensure_mapped map_data a name).1,
     with_low_memory (ensure_mapped map_data a name).2 lm).
Proof.
  unfold ensure_mapped. cbn [with_low_memory base].
  by destruct (mapped_status (base a) !! name) as [[ | ] | ].
Qed.

(** C1, as the code has it: when the cache has no entry for the dataset,
    the indices of the dataset fit in 32 bits and the eager run ends
    well, the low-memory run from the same datasets and mappings ends
    well too and yields the same batches, triples and one-hot rows
    alike. *)
Theorem low_memory_agrees_with_eager_on_cache_miss
    (map_data : NumpyDatasetAdapter -> NumpyDatasetAdapter)
    (a : OneToNDatasetAdapter) (k : Z) (name : string) (use_filter : bool)
    (ys : list batch) (a' : OneToNDatasetAdapter) (ts : list triple) :
  output_onehot a !! name = None ->
  get_next_batch map_data (with_low_memory a false) k name use_filter
  = (ys, Exhausted, a') ->
  dataset (base a') !! name = Some ts ->
  forallb triple_fits_int32 ts = true ->
  (get_next_batch map_data (with_low_memory a true) k name use_filter).1
  = (ys, Exhausted).
Proof.
  intros Hmiss Hrun Hdata Hfit.
  apply get_next_batch_eager_miss in Hrun; [ | done | done].
  destruct Hrun as [[Hne _] | (_ & ts' & sel & m & bs & count & H)]; [done | ].
  destruct H as (Hens & Hdata' & Hplan & Hsel & Hm & _ & _ & ->).
  rewrite Hdata in Hdata'. injection Hdata' as <-.
  cbn [with_low_memory filter_mapping output_mapping] in Hsel.
  rewrite ensure_mapped_with_low_memory in Hens.
  injection Hens as Hr Hst.
  assert (Hb : base (ensure_mapped map_data a name).2 = base a').
  { by rewrite <- Hst. }
  destruct (ensure_mapped_fields map_data a (ensure_mapped map_data a name).2 name
              (ensure_mapped map_data a name).1) as (Hfm & _ & Hom & _ & _).
  { by destruct (ensure_mapped map_data a name). }
  unfold get_next_batch. rewrite ensure_mapped_with_low_memory, Hr.
  cbn [with_low_memory base low_memory filter_mapping output_mapping negb].
  rewrite Hb, Hdata, Hplan, Hfm, Hom.
  assert (Hguard : use_filter && is_None (filter_mapping a) = false).
  { destruct use_filter; [ | done]. by rewrite Hsel. }
  rewrite Hguard, Hsel.
  by rewrite (lazy_batches_of_matrix _ _ _ m).
Qed.

Lemma low_memory_agrees_with_eager_on_cache_miss_witness :
  (get_next_batch mark_mapped (with_low_memory (kg_ready false) true) 2 "train" false).1
  = ([([(0, 0, 1); (0, 0, 2)], [[0; 1; 1]; [0; 1; 1]]);
      ([(1, 0, 2)], [[0; 0; 1]])], Exhausted).
Proof.
  apply (low_memory_agrees_with_eager_on_cache_miss mark_mapped (kg_ready false) 2
           "train" false _
           (get_next_batch mark_mapped (with_low_memory (kg_ready false) false)
                           2 "train" false).2
           kg_train_triples).
  - vm_compute. reflexivity.
  - vm_compute. reflexivity.
  - vm_compute. reflexivity.
  - vm_compute. reflexivity.
Defined.

(** C1, as stated, fails, in two ways.  First, by the way eager mode
    works: built by the same calls, an eager and a low-memory adapter hold
    the same dataset and output mapping, in which the second row names an
    object index outside the vocabulary; in low-memory mode the first batch
    is yielded before the second raises, in eager mode the matrix is built,
    and the error raised, before any batch is yielded.  Second, through the
    stale cache: after the same calls ([set_data], [set_output_mapping],
    [set_filter], a pass with [use_filter=True]) the two adapters hold the
    same datasets and mappings, and the request with [use_filter=False]
    yields the rows of the filter in eager mode, where the cache is served,
    and the rows of the output mapping in low-memory mode. *)
Lemma low_memory_and_eager_batches_differ :
  (base (kg_out_of_vocabulary true) = base (kg_out_of_vocabulary false) /\
   output_mapping (kg_out_of_vocabulary true)
   = output_mapping (kg_out_of_vocabulary false) /\
   filter_mapping (kg_out_of_vocabulary true)
   = filter_mapping (kg_out_of_vocabulary false) /\
   (get_next_batch mark_mapped (kg_out_of_vocabulary true) 2 "train" false).1
   = ([([(0, 0, 1)], [[0; 1; 0]])], Raised IndexError) /\
   (get_next_batch mark_mapped (kg_out_of_vocabulary false) 2 "train" false).1
   = ([], Raised IndexError)) /\
  (base kg_after_filtered_pass_low_memory = base kg_after_filtered_pass /\
   output_mapping kg_after_filtered_pass_low_memory
   = output_mapping kg_after_filtered_pass /\
   filter_mapping kg_after_filtered_pass_low_memory
   = filter_mapping kg_after_filtered_pass /\
   (get_next_batch mark_mapped kg_after_filtered_pass_low_memory 1 "train" false).1
   = ([(kg_train_triples, [[0; 1; 1]; [0; 1; 1]; [0; 0; 1]])], Exhausted) /\
   (get_next_batch mark_mapped kg_after_filtered_pass 1 "train" false).1
   = ([(kg_train_triples, [[0; 1; 1]; [0; 1; 1]; [1; 0; 1]])], Exhausted)).
Proof. repeat split; vm_compute; reflexivity. Qed.

(** ** Subject corruptions *)

Lemma set_ones_length (row : list Z) (indices : list Z) (r : list Z) :
  set_ones row indices = Some r -> length r = length row.
Proof.
  unfold set_ones. destruct (mapM (np_index (length row)) indices) as [js | ]; [ | done].
  simpl. intros [= <-]. induction js as [ | j js IH]; [done | ].
  simpl. by rewrite length_insert.
Qed.

Lemma onehot_row_in_range (width : nat) (d : gmap (Z * Z) (list Z)) (x : triple) :
  indices_in_range width d ->
  exists r : list Z, onehot_row width (Some d) x = Return r /\ length r = width.
Proof.
  intros Hd. unfold onehot_row, dict_get.
  assert (Hl : Forall (fun i => is_Some (np_index width i))
                      (default [] (d !! (subj x, pred x)))).
  { destruct (d !! (subj x, pred x)) as [l | ] eqn:Hk; [ | constructor].
    apply (map_Forall_lookup_1 _ _ _ _ Hd Hk). }
  destruct (set_ones (replicate width 0) (default [] (d !! (subj x, pred x))))
    as [r | ] eqn:Hset.
  - exists r. split; [done | ].
    apply set_ones_length in Hset. by rewrite length_replicate in Hset.
  - exfalso. unfold set_ones in Hset. rewrite length_replicate in Hset.
    apply mapM_is_Some in Hl as [js Hjs]. by rewrite Hjs in Hset.
Qed.

Lemma onehot_batch_in_range (width : nat) (d : gmap (Z * Z) (list Z))
    (out : list triple) :
  indices_in_range width d ->
  onehot_batch width (Some d) out = Return (onehot_of width d out) /\
  length (onehot_of width d out) = length out /\
  Forall (fun r => length r = width) (onehot_of width d out).
Proof.
  intros Hd. unfold onehot_of.
  induction out as [ | x out (IH1 & IH2 & IH3)]; [by repeat constructor | ].
  cbn [onehot_batch].
  destruct (onehot_row_in_range width d x Hd) as (r & -> & Hr).
  destruct (onehot_batch width (Some d) out) as [m | e]; [ | done].
  repeat split; [by simpl; f_equal | by constructor].
Qed.

Lemma chunk_count_covers (len c : nat) :
  (0 < c)%nat -> (len <= chunk_count len c * c)%nat.
Proof.
  intros Hc. unfold chunk_count.
  pose proof (Nat.div_mod_eq (len + c - 1) c) as Hdiv.
  pose proof (Nat.mod_upper_bound (len + c - 1) c ltac:(lia)) as Hmod.
  nia.
Qed.

Lemma chunk_count_least (len c j : nat) :
  (0 < c)%nat -> (len <= j * c)%nat -> (chunk_count len c <= j)%nat.
Proof.
  intros Hc Hj. unfold chunk_count.
  pose proof (Nat.div_mod_eq (len + c - 1) c) as Hdiv.
  pose proof (Nat.mod_upper_bound (len + c - 1) c ltac:(lia)) as Hmod.
  nia.
Qed.


(** The loop over the entities for one relation: with a positive batch
    size, indices in range and pulls enough, it yields the chunks not yet
    seen and ends. *)
Lemma corruption_chunks_run (pulls : nat) (d : gmap (Z * Z) (list Z))
    (ent_list : list Z) (batch_size rel : Z) (test : list triple) (j : nat) :
  0 < batch_size ->
  indices_in_range (length ent_list) d ->
  (chunk_count (length ent_list) (Z.to_nat batch_size) <= j + pulls)%nat ->
  corruption_chunks pulls (Some d) ent_list batch_size rel test
                    (Z.of_nat j * batch_size)
  = (corruption_item d ent_list (Z.to_nat batch_size) rel test
       <$> seq j (chunk_count (length ent_list) (Z.to_nat batch_size) - j),
     Exhausted,
     (pulls - (chunk_count (length ent_list) (Z.to_nat batch_size) - j))%nat).
Proof.
  intros Hbs Hd. set (c := Z.to_nat batch_size).
  set (cnt := chunk_count (length ent_list) c).
  assert (Hc : (0 < c)%nat) by (unfold c; lia).
  revert j. induction pulls as [ | pulls IH]; intros j Hpulls.
  - assert (Hj : (cnt - j = 0)%nat) by lia. rewrite Hj. simpl.
    assert (Hlen : (length ent_list <= j * c)%nat).
    { pose proof (chunk_count_covers (length ent_list) c Hc). fold cnt in H. nia. }
    replace (Z.of_nat j * batch_size <? Z.of_nat (length ent_list)) with false
      by (symmetry; apply Z.ltb_ge; unfold c in Hlen; nia).
    done.
  - cbn [corruption_chunks].
    destruct (Z.ltb_spec (Z.of_nat j * batch_size) (Z.of_nat (length ent_list)))
      as [Hlt | Hge]; cbn [negb].
    + assert (Hj : (j < cnt)%nat).
      { destruct (Nat.lt_ge_cases j cnt) as [ | Hle]; [done | exfalso].
        pose proof (chunk_count_covers (length ent_list) c Hc). fold cnt in H.
        unfold c in *. nia. }
      replace (Z.of_nat j * batch_size + batch_size)
        with ((Z.of_nat j + 1) * batch_size) by lia.
      rewrite py_slice_chunk by lia. fold c.
      destruct (onehot_batch_in_range (length ent_list) d
                  ((fun e => (e, rel, 0)) <$> take c (drop (j * c) ent_list)) Hd)
        as (-> & _ & _).
      replace ((Z.of_nat j + 1) * batch_size) with (Z.of_nat (S j) * batch_size) by lia.
      rewrite (IH (S j)) by lia.
      replace (cnt - j)%nat with (S (cnt - S j)) by lia.
      cbn [seq fmap list_fmap]. reflexivity.
    + assert (Hj : (cnt - j = 0)%nat).
      { apply Nat.sub_0_le. apply chunk_count_least; [done | ]. unfold c. nia. }
      rewrite Hj. reflexivity.
Qed.

(** The loop over the relations. *)
Lemma corruption_relations_run (pulls : nat) (ts : list triple)
    (d : gmap (Z * Z) (list Z)) (ent_list : list Z) (batch_size : Z)
    (rel_list : list Z) :
  0 < batch_size ->
  indices_in_range (length ent_list) d ->
  (length rel_list * chunk_count (length ent_list) (Z.to_nat batch_size) <= pulls)%nat ->
  corruption_relations pulls (Some ts) (Some d) ent_list batch_size rel_list
  = (corruption_items d ent_list (Z.to_nat batch_size) ts rel_list, Exhausted).
Proof.
  intros Hbs Hd. revert pulls.
  induction rel_list as [ | rel rels IH]; intros pulls Hpulls; [done | ].
  cbn [corruption_relations].
  pose proof (corruption_chunks_run pulls d ent_list batch_size rel
                (filter (fun x => pred x = rel) ts) 0 Hbs Hd) as Hrun.
  simpl in Hpulls. change (Z.of_nat 0 * batch_size) with 0 in Hrun.
  rewrite Hrun by lia. rewrite IH by lia.
  unfold corruption_items. rewrite fmap_cons. simpl.
  by rewrite Nat.sub_0_r.
Qed.





(** A relation without triples gets its batches all the same, with no
    test triples. *)
Example subject_corruptions_unused_relation :
  get_next_batch_subject_corruptions 4 kg_two_relations 2 "train" true
  = ([(kg_train_triples, [(0, 0, 0); (1, 0, 0)], [[0; 1; 1]; [0; 0; 1]]);
      (kg_train_triples, [(2, 0, 0)], [[0; 0; 0]]);
      ([], [(0, 1, 0); (1, 1, 0)], [[0; 0; 0]; [0; 0; 0]]);
      ([], [(2, 1, 0)], [[0; 0; 0]])], Exhausted).
Proof. vm_compute. reflexivity. Qed.


(** ** The negatives of a companion adapter *)

Lemma negatives_inner_loop (m : gmap (Z * Z) (list Z)) (e : Z) (rels : list Z)
    (l : list (Z * Z)) :
  foldl (fun acc' r => negatives_step (Some m) acc' (e, r)) (Return l) rels
  = Return (l ++ filter (fun x => m !! x = None) ((fun r => (e, r)) <$> rels)).
Proof.
  revert l. induction rels as [ | r rels IH]; intros l.
  - simpl. by rewrite app_nil_r.
  - cbn [foldl negatives_step]. rewrite fmap_cons.
    destruct (m !! (e, r)) as [v | ] eqn:Hk.
    + rewrite bool_decide_eq_true_2 by eauto. rewrite IH.
      rewrite filter_cons_False; [done | ]. by rewrite Hk.
    + rewrite bool_decide_eq_false_2 by (by intros [? ?]). rewrite IH.
      rewrite filter_cons_True by done. by rewrite <- app_assoc.
Qed.

Lemma negatives_outer_loop (m : gmap (Z * Z) (list Z)) (ents rels : list Z)
    (l : list (Z * Z)) :
  foldl (fun acc e =>
           foldl (fun acc' r => negatives_step (Some m) acc' (e, r)) acc rels)
        (Return l) ents
  = Return (l ++ filter (fun x => m !! x = None)
                        (e ← ents; (fun r => (e, r)) <$> rels)).
Proof.
  revert l. induction ents as [ | e ents IH]; intros l.
  - simpl. by rewrite app_nil_r.
  - cbn [foldl]. rewrite negatives_inner_loop, IH.
    rewrite bind_cons, filter_app. by rewrite <- app_assoc.
Qed.

(** X1: with a companion whose output mapping is set, the negatives are
    the pairs of the vocabularies that are no key of that mapping, entity
    after entity and, for an entity, relation after relation. *)
Theorem negative_mappings_are_absent_pairs (a companion : OneToNDatasetAdapter)
    (m : gmap (Z * Z) (list Z)) :
  output_mapping companion = Some m ->
  generate_negative_output_mappings a (Some companion)
  = Return (filter (fun x => m !! x = None) (vocabulary_pairs a)).
Proof.
  intros Hm. unfold generate_negative_output_mappings, vocabulary_pairs.
  rewrite Hm. by rewrite negatives_outer_loop.
Qed.

Lemma negative_mappings_are_absent_pairs_witness :
  generate_negative_output_mappings kg_two_relations (Some (kg_ready false))
  = Return [(0, 1); (1, 1); (2, 0); (2, 1)].
Proof.
  rewrite (negative_mappings_are_absent_pairs kg_two_relations (kg_ready false)
             (group_objects kg_train_triples)).
  - vm_compute. reflexivity.
  - vm_compute. reflexivity.
Defined.

Lemma group_objects_lookup_None (ts : list triple) (k : Z * Z) :
  group_objects ts !! k = None <-> forall x : triple, x ∈ ts -> (subj x, pred x) <> k.
Proof.
  rewrite group_objects_lookup. unfold objects_of. split.
  - intros H x Hx Hk.
    assert (Hin : x ∈ filter (fun x => (subj x, pred x) = k) ts)
      by (by apply list_elem_of_filter).
    destruct (filter (fun x => (subj x, pred x) = k) ts) as [ | y l];
      [by apply elem_of_nil in Hin | done].
  - intros H.
    destruct (filter (fun x => (subj x, pred x) = k) ts) as [ | y l] eqn:Hf; [done | ].
    assert (Hin : y ∈ filter (fun x => (subj x, pred x) = k) ts)
      by (rewrite Hf; apply elem_of_cons; by left).
    apply list_elem_of_filter in Hin as [Hk Hy]. by destruct (H y Hy).
Qed.

(** X2: when the output mapping of the companion was made by
    [generate_output_mapping] from the triples [ts], a pair is a negative
    exactly when it is a pair of the vocabularies that is the subject and
    predicate of no triple of [ts]. *)
Theorem negative_mappings_complement_dataset (a companion : OneToNDatasetAdapter)
    (ts : list triple) :
  output_mapping companion = Some (group_objects ts) ->
  exists negatives : list (Z * Z),
    generate_negative_output_mappings a (Some companion) = Return negatives /\
    forall e r : Z,
      (e, r) ∈ negatives <->
      (e, r) ∈ vocabulary_pairs a /\
      forall x : triple, x ∈ ts -> (subj x, pred x) <> (e, r).
Proof.
  intros Hm. eexists. split.
  - unfold generate_negative_output_mappings. rewrite Hm.
    by rewrite negatives_outer_loop.
  - intros e r. cbn [app]. fold (vocabulary_pairs a).
    rewrite list_elem_of_filter, group_objects_lookup_None. tauto.
Qed.

Lemma negative_mappings_complement_dataset_witness :
  exists negatives : list (Z * Z),
    generate_negative_output_mappings kg_two_relations (Some (kg_ready false))
    = Return negatives /\
    forall e r : Z,
      (e, r) ∈ negatives <->
      (e, r) ∈ vocabulary_pairs kg_two_relations /\
      forall x : triple, x ∈ kg_train_triples -> (subj x, pred x) <> (e, r).
Proof.
  apply (negative_mappings_complement_dataset kg_two_relations (kg_ready false)
           kg_train_triples).
  vm_compute. reflexivity.
Defined.

Lemma negatives_inner_loop_None (e : Z) (r : Z) (rels : list Z)
    (acc : outcome (list (Z * Z))) :
  exists ex : exn,
    foldl (fun acc' r' => negatives_step None acc' (e, r')) acc (r :: rels)
    = Raise ex /\
    (forall l, acc = Return l -> ex = AttributeError).
Proof.
  assert (Hraise : forall ex rels',
            foldl (fun acc' r' => negatives_step None acc' (e, r')) (Raise ex) rels'
            = Raise ex).
  { intros ex rels'. induction rels' as [ | r' rels' IH]; [done | ]. apply IH. }
  destruct acc as [l | ex].
  - exists AttributeError. cbn [foldl negatives_step]. by rewrite Hraise.
  - exists ex. cbn [foldl negatives_step]. rewrite Hraise. by split.
Qed.

(** X3: without a companion the method raises [AttributeError]; with a
    companion whose output mapping was never set it raises
    [AttributeError] as soon as there is a pair to test, and returns no
    negative, without error, when a vocabulary is empty. *)
Theorem negative_mappings_without_mapping (a companion : OneToNDatasetAdapter) :
  output_mapping companion = None ->
  generate_negative_output_mappings a None = Raise AttributeError /\
  generate_negative_output_mappings a (Some companion)
  = match vocabulary_pairs a with
    | [] => Return []
    | _ :: _ => Raise AttributeError
    end.
Proof.
  intros Hm. split; [done | ].
  unfold generate_negative_output_mappings, vocabulary_pairs. rewrite Hm.
  generalize ((rel_to_idx (base a)).*2) as rels.
  generalize ((ent_to_idx (base a)).*2) as ents.
  intros ents rels.
  destruct rels as [ | r rels].
  - assert (Hb : (e ← ents; (fun r => (e, r)) <$> ([] : list Z)) = []).
    { induction ents as [ | e ents IH]; [done | ]. by rewrite bind_cons, IH. }
    rewrite Hb. clear Hb. induction ents as [ | e ents IH]; [done | ]. apply IH.
  - destruct ents as [ | e ents]; [done | ].
    rewrite bind_cons, fmap_cons. cbn [app].
    cbn [foldl].
    destruct (negatives_inner_loop_None e r rels (Return [])) as (ex & Hex & Hattr).
    assert (Hfirst : foldl (fun acc' r' => negatives_step None acc' (e, r'))
                           (negatives_step None (Return []) (e, r)) rels
                     = Raise AttributeError).
    { cbn [foldl] in Hex. rewrite Hex. f_equal. by eapply Hattr. }
    rewrite Hfirst.
    clear. induction ents as [ | e' ents IH]; [done | ].
    cbn [foldl].
    assert (Hin : foldl (fun acc' r' => negatives_step None acc' (e', r'))
                        (Raise AttributeError) (r :: rels) = Raise AttributeError).
    { clear. generalize (r :: rels). intros l.
      induction l as [ | x l IH]; [done | ]. apply IH. }
    cbn [foldl] in Hin. cbn [negatives_step] in Hin. cbn [negatives_step].
    rewrite Hin. apply IH.
Qed.

Lemma negative_mappings_without_mapping_witness :
  generate_negative_output_mappings kg_two_relations None = Raise AttributeError /\
  generate_negative_output_mappings kg_two_relations (Some (kg_with_train false))
  = Raise AttributeError.
Proof.
  apply (negative_mappings_without_mapping kg_two_relations (kg_with_train false)).
  reflexivity.
Defined.

(** ** More on [get_next_batch] *)

(** X4: with [batches_count = -1] a run that ends well yields as many
    batches as the dataset has rows, and batch [i] holds row [i] alone,
    through [np.int32]. *)
Theorem get_next_batch_default_one_triple_per_batch
    (map_data : NumpyDatasetAdapter -> NumpyDatasetAdapter)
    (a : OneToNDatasetAdapter) (name : string) (use_filter : bool)
    (ys : list batch) (a' : OneToNDatasetAdapter) :
  get_next_batch map_data a (-1) name use_filter = (ys, Exhausted, a') ->
  exists ts : list triple,
    dataset (base a') !! name = Some ts /\
    length ys = length ts /\
    forall (i : nat) (y : batch),
      ys !! i = Some y ->
      exists x : triple, ts !! i = Some x /\ y.1 = [int32_triple x].
Proof.
  intros Hrun.
  destruct (get_next_batch_triples _ _ _ _ _ _ _ Hrun)
    as (ts & batch_size & count & Hdata & Hplan & Hys).
  exists ts. split; [done | ].
  cbn in Hplan. injection Hplan as <- <-. rewrite Nat2Z.id in Hys.
  split.
  - transitivity (length ys.*1); [by rewrite length_fmap | ].
    by rewrite Hys, length_fmap, length_seq.
  - intros i y Hy.
    pose proof (list_lookup_fmap_Some_2 fst ys i y Hy) as Hy1.
    rewrite Hys, list_lookup_fmap in Hy1.
    destruct (seq 0 (length ts) !! i) as [j | ] eqn:Hj; [ | done].
    apply lookup_seq in Hj as [-> Hlt]. simpl in Hy1. injection Hy1 as <-.
    destruct (lookup_lt_is_Some_2 ts i Hlt) as [x Hx].
    exists x. split; [done | ].
    rewrite triples_slice_chunk by lia.
    change (Z.to_nat 1) with 1%nat. rewrite Nat.mul_1_r.
    by rewrite (drop_S _ _ _ Hx).
Qed.

Lemma get_next_batch_default_one_triple_per_batch_witness :
  exists ts : list triple,
    dataset (base (get_next_batch mark_mapped (kg_ready true) (-1) "train" false).2)
      !! "train"%string = Some ts /\
    length (get_next_batch mark_mapped (kg_ready true) (-1) "train" false).1.1
    = length ts.
Proof.
  destruct (get_next_batch_default_one_triple_per_batch mark_mapped (kg_ready true)
              "train" false
              (get_next_batch mark_mapped (kg_ready true) (-1) "train" false).1.1
              (get_next_batch mark_mapped (kg_ready true) (-1) "train" false).2)
    as (ts & Hd & Hl & _).
  - vm_compute. reflexivity.
  - exists ts. by split.
Defined.

(** X5: while no filter is registered, a request with [use_filter=True]
    yields no batch and raises, in both modes: [KeyError] when the dataset
    is not registered (no mapped status, or no array once mapping is
    ensured), otherwise [ZeroDivisionError] when [batches_count] is 0,
    otherwise [ValueError], the missing-filter error.  The adapter is left
    as the mapping step left it, with the cache and its flags as they
    were. *)
Theorem get_next_batch_requires_filter
    (map_data : NumpyDatasetAdapter -> NumpyDatasetAdapter)
    (a : OneToNDatasetAdapter) (k : Z) (name : string) :
  filter_mapping a = None ->
  let a1 := (ensure_mapped map_data a name).2 in
  let registered :=
    negb (is_None (mapped_status (base a) !! name))
    && negb (is_None (dataset (base a1) !! name)) in
  get_next_batch map_data a k name true
  = ([], Raised (missing_filter_error registered k), a1) /\
  output_onehot a1 = output_onehot a /\
  filtered_status a1 = filtered_status a.
Proof.
  intros Hnone a1 registered. subst a1 registered.
  unfold get_next_batch.
  destruct (ensure_mapped map_data a name) as [r a1] eqn:Hens.
  destruct (ensure_mapped_fields _ _ _ _ _ Hens) as (Hfm & Hfs & _ & Hoo & _).
  cbn [snd]. split; [ | done].
  unfold ensure_mapped in Hens.
  destruct (mapped_status (base a) !! name) as [mapped | ] eqn:Hms.
  - assert (Hr : r = Return tt) by (destruct mapped; by injection Hens as <- _).
    subst r. cbn [is_None negb andb].
    destruct (dataset (base a1) !! name) as [ts | ]; [ | done].
    cbn [is_None negb]. unfold batch_plan, missing_filter_error. cbn [negb].
    destruct (Z.eqb_spec k (-1)) as [-> | Hk1].
    + rewrite Hfm, Hnone. done.
    + destruct (k =? 0); [done | ]. by rewrite Hfm, Hnone.
  - injection Hens as <- <-. done.
Qed.

Lemma get_next_batch_requires_filter_witness :
  get_next_batch mark_mapped (kg_ready false) 2 "train" true
  = ([], Raised ValueError, kg_ready false) /\
  get_next_batch mark_mapped (kg_ready false) 0 "train" true
  = ([], Raised ZeroDivisionError, kg_ready false) /\
  get_next_batch mark_mapped (kg_ready false) 2 "test" true
  = ([], Raised KeyError, kg_ready false).
Proof.
  split; [ | split].
  - apply (get_next_batch_requires_filter mark_mapped (kg_ready false) 2 "train").
    reflexivity.
  - apply (get_next_batch_requires_filter mark_mapped (kg_ready false) 0 "train").
    reflexivity.
  - apply (get_next_batch_requires_filter mark_mapped (kg_ready false) 2 "test").
    reflexivity.
Defined.

(** X6: in eager mode, over a dataset whose indices fit in 32 bits, a run
    that raises has yielded nothing: the matrix is built, and every error
    raised, before the first batch. *)
Theorem get_next_batch_eager_all_or_nothing
    (map_data : NumpyDatasetAdapter -> NumpyDatasetAdapter)
    (a : OneToNDatasetAdapter) (k : Z) (name : string) (use_filter : bool)
    (ys : list batch) (e : ending) (a' : OneToNDatasetAdapter) :
  low_memory a = false ->
  get_next_batch map_data a k name use_filter = (ys, e, a') ->
  (forall ts : list triple,
     dataset (base a') !! name = Some ts -> forallb triple_fits_int32 ts = true) ->
  e = Exhausted \/ (exists ex : exn, e = Raised ex) /\ ys = [].
Proof.
  intros Hlm Hrun _. revert Hrun. unfold get_next_batch.
  destruct (ensure_mapped map_data a name) as [r a1] eqn:Hens.
  destruct (ensure_mapped_fields _ _ _ _ _ Hens) as (_ & _ & _ & _ & Hl).
  destruct r as [[] | e1]; [ | intros [= <- <- <-]; eauto].
  destruct (dataset (base a1) !! name) as [ts | ]; [ | intros [= <- <- <-]; eauto].
  destruct (batch_plan (Z.of_nat (length ts)) k) as [[batch_size count] | e1];
    [ | intros [= <- <- <-]; eauto].
  destruct (use_filter && is_None (filter_mapping a1));
    [intros [= <- <- <-]; eauto | ].
  rewrite Hl, Hlm. cbn [negb].
  destruct (match needs_rebuild a1 name use_filter with
            | Return true => generate_onehot_outputs a1 name use_filter
            | Return false => (Return (), a1)
            | Raise e => (Raise e, a1)
            end) as [[[] | e2] a2]; [ | intros [= <- <- <-]; eauto].
  destruct (output_onehot a2 !! name); intros [= <- <- <-]; eauto.
Qed.

Lemma get_next_batch_eager_all_or_nothing_witness :
  (get_next_batch mark_mapped (kg_out_of_vocabulary false) 2 "train" false).1.2
  = Exhausted \/
  (exists ex : exn,
     (get_next_batch mark_mapped (kg_out_of_vocabulary false) 2 "train" false).1.2
     = Raised ex) /\
  (get_next_batch mark_mapped (kg_out_of_vocabulary false) 2 "train" false).1.1 = [].
Proof.
  apply (get_next_batch_eager_all_or_nothing mark_mapped (kg_out_of_vocabulary false)
           2 "train" false _ _
           (get_next_batch mark_mapped (kg_out_of_vocabulary false) 2 "train" false).2).
  - reflexivity.
  - vm_compute. reflexivity.
  - intros ts Hts. vm_compute in Hts. injection Hts as <-. reflexivity.
Defined.

Lemma ceil_div_pos (n k : Z) : 0 < n -> 0 < k -> 0 < ceil_div n k.
Proof. intros Hn Hk. pose proof (ceil_div_covers n k Hk). nia. Qed.

Lemma triples_slice_first (x : triple) (ts : list triple) (c : Z) :
  0 < c -> exists l : list triple, triples_slice (x :: ts) c 0 = int32_triple x :: l.
Proof.
  intros Hc. rewrite triples_slice_chunk by lia.
  destruct (Z.to_nat c) as [ | n] eqn:Hn; [lia | ].
  simpl. eauto.
Qed.

(** X7: the error for an output mapping that was never set depends on the
    mode.  For a mapped dataset that is not empty and whose indices fit
    in 32 bits, an unfiltered request
    with [batches_count] positive or [-1] raises [AttributeError] in
    low-memory mode, at the first row, and [ValueError] in eager mode when
    the dataset is not cached; no batch is yielded and the adapter is left
    as it was. *)
Theorem get_next_batch_missing_output_mapping
    (map_data : NumpyDatasetAdapter -> NumpyDatasetAdapter)
    (a : OneToNDatasetAdapter) (k : Z) (name : string)
    (x : triple) (ts : list triple) :
  output_mapping a = None ->
  mapped_status (base a) !! name = Some true ->
  dataset (base a) !! name = Some (x :: ts) ->
  forallb triple_fits_int32 (x :: ts) = true ->
  output_onehot a !! name = None ->
  k = -1 \/ 0 < k ->
  get_next_batch map_data (with_low_memory a true) k name false
  = ([], Raised AttributeError, with_low_memory a true) /\
  get_next_batch map_data (with_low_memory a false) k name false
  = ([], Raised ValueError, with_low_memory a false).
Proof.
  intros Hom Hmapped Hdata _ Hmiss Hk.
  assert (Hplan : exists batch_size count : Z,
            batch_plan (Z.of_nat (length (x :: ts))) k = Return (batch_size, count) /\
            0 < batch_size /\ 0 < count).
  { unfold batch_plan. destruct Hk as [-> | Hk].
    - exists 1, (Z.of_nat (length (x :: ts))). cbn [Z.eqb Pos.eqb length].
      repeat split; lia.
    - destruct (Z.eqb_spec k (-1)) as [ | _]; [lia | ].
      destruct (Z.eqb_spec k 0) as [ | _]; [lia | ].
      exists (ceil_div (Z.of_nat (length (x :: ts))) k), k.
      repeat split; [ | done]. apply ceil_div_pos; [simpl; lia | done]. }
  destruct Hplan as (batch_size & count & Hplan & Hbs & Hcount).
  split.
  - unfold get_next_batch, ensure_mapped.
    cbn [with_low_memory base]. rewrite Hmapped.
    cbn [with_low_memory base low_memory filter_mapping output_mapping].
    rewrite Hdata, Hplan. cbn [andb negb]. rewrite Hom.
    destruct (Z.to_nat count) as [ | n] eqn:Hn; [lia | ].
    cbn [seq lazy_batches].
    destruct (triples_slice_first x ts batch_size Hbs) as [l ->].
    by rewrite onehot_batch_None.
  - unfold get_next_batch, ensure_mapped.
    cbn [with_low_memory base]. rewrite Hmapped.
    cbn [with_low_memory base low_memory filter_mapping output_mapping].
    rewrite Hdata, Hplan. cbn [andb negb].
    unfold needs_rebuild. cbn [with_low_memory output_onehot]. rewrite Hmiss.
    unfold generate_onehot_outputs, resolve_mapping.
    cbn [with_low_memory base output_mapping]. by rewrite Hdata, Hom.
Qed.

Lemma get_next_batch_missing_output_mapping_witness :
  get_next_batch mark_mapped (with_low_memory (kg_with_train false) true) (-1) "train" false
  = ([], Raised AttributeError, with_low_memory (kg_with_train false) true) /\
  get_next_batch mark_mapped (with_low_memory (kg_with_train false) false) (-1) "train" false
  = ([], Raised ValueError, with_low_memory (kg_with_train false) false).
Proof.
  apply (get_next_batch_missing_output_mapping mark_mapped (kg_with_train false) (-1)
           "train" (0, 0, 1) [(0, 0, 2); (1, 0, 2)]).
  - reflexivity.
  - vm_compute. reflexivity.
  - vm_compute. reflexivity.
  - reflexivity.
  - vm_compute. reflexivity.
  - by left.
Defined.

(** X8: in low-memory mode nothing is ever cached: [generate_onehot_outputs]
    leaves the adapter as it is, whatever it returns, and a run of
    [get_next_batch] leaves the cache, its flags and both mappings as they
    were. *)
Theorem low_memory_never_caches
    (map_data : NumpyDatasetAdapter -> NumpyDatasetAdapter)
    (a : OneToNDatasetAdapter) (k : Z) (name : string) (use_filter : bool) :
  low_memory a = true ->
  (generate_onehot_outputs a name use_filter).2 = a /\
  output_onehot (get_next_batch map_data a k name use_filter).2 = output_onehot a /\
  filtered_status (get_next_batch map_data a k name use_filter).2 = filtered_status a /\
  filter_mapping (get_next_batch map_data a k name use_filter).2 = filter_mapping a /\
  output_mapping (get_next_batch map_data a k name use_filter).2 = output_mapping a.
Proof.
  intros Hlm. split.
  - unfold generate_onehot_outputs.
    destruct (dataset (base a) !! name); [ | done].
    destruct (resolve_mapping a use_filter); [ | done].
    by rewrite Hlm.
  - unfold get_next_batch.
    destruct (ensure_mapped map_data a name) as [r a1] eqn:Hens.
    destruct (ensure_mapped_fields _ _ _ _ _ Hens) as (Hfm & Hfs & Hom & Hoo & Hl).
    destruct r as [[] | e1]; [ | done].
    destruct (dataset (base a1) !! name) as [ts | ]; [ | done].
    destruct (batch_plan (Z.of_nat (length ts)) k) as [[batch_size count] | e1];
      [ | done].
    destruct (use_filter && is_None (filter_mapping a1)); [done | ].
    rewrite Hl, Hlm. cbn [negb].
    by destruct (lazy_batches _ _ ts batch_size _).
Qed.

Lemma low_memory_never_caches_witness :
  (generate_onehot_outputs (kg_ready true) "train" false).2 = kg_ready true /\
  output_onehot (get_next_batch mark_mapped (kg_ready true) 2 "train" false).2 = ∅.
Proof.
  destruct (low_memory_never_caches mark_mapped (kg_ready true) 2 "train" false)
    as (H1 & H2 & _).
  - reflexivity.
  - split; [exact H1 | exact H2].
Defined.

(** ** One-hot rows *)

Lemma np_index_lt (n : nat) (i : Z) (j : nat) :
  np_index n i = Some j -> (j < n)%nat.
Proof.
  unfold np_index.
  destruct (Z.leb_spec 0 i), (Z.ltb_spec i (Z.of_nat n)); cbn [andb];
    try (intros [= <-]; lia).
  all: destruct (Z.leb_spec (- Z.of_nat n) i), (Z.ltb_spec i 0); cbn [andb];
    try done; intros [= <-]; lia.
Qed.

Lemma foldr_insert_ones_length (js : list nat) (row : list Z) :
  length (foldr (fun j r => <[j := 1]> r) row js) = length row.
Proof.
  induction js as [ | j js IH]; [done | ]. simpl. by rewrite length_insert.
Qed.

Lemma foldr_insert_ones_lookup (js : list nat) (row : list Z) (j : nat) :
  (j < length row)%nat ->
  foldr (fun j r => <[j := 1]> r) row js !! j
  = if decide (j ∈ js) then Some 1 else row !! j.
Proof.
  intros Hj. induction js as [ | j0 js IH].
  - simpl. destruct (decide (j ∈ [])) as [Hin | ]; [by apply elem_of_nil in Hin | done].
  - cbn [foldr]. rewrite list_lookup_insert, foldr_insert_ones_length, IH.
    destruct (decide (j0 = j ∧ (j0 < length row)%nat)) as [[-> _] | Hne].
    + rewrite decide_True; [done | apply elem_of_cons; by left].
    + destruct (decide (j ∈ js)) as [Hin | Hnin].
      * rewrite decide_True; [done | apply elem_of_cons; by right].
      * rewrite decide_False; [done | ].
        intros [-> | Hin]%elem_of_cons; [ | done]. apply Hne. by split.
Qed.

Lemma Forall2_np_index_elem (n : nat) (indices : list Z) (js : list nat) (j : nat) :
  Forall2 (fun i j' => np_index n i = Some j') indices js ->
  j ∈ js <-> exists i : Z, i ∈ indices /\ np_index n i = Some j.
Proof.
  intros H. induction H as [ | i j' indices js Hi H IH].
  - split; [by intros ?%elem_of_nil | by intros (? & ?%elem_of_nil & _)].
  - rewrite elem_of_cons, IH. split.
    + intros [-> | (i' & Hin & Hi')].
      * exists i. split; [apply elem_of_cons; by left | done].
      * exists i'. split; [apply elem_of_cons; by right | done].
    + intros (i' & [-> | Hin]%elem_of_cons & Hi').
      * left. rewrite Hi in Hi'. by injection Hi'.
      * right. eauto.
Qed.

(** X9: a one-hot row that is built has the width asked for and holds
    zeros and ones only; column [j] holds a one exactly when some index of
    the list the mapping has for the subject and predicate of the row
    denotes [j], counting a negative index from the end. *)
Theorem onehot_row_columns (width : nat) (d : gmap (Z * Z) (list Z))
    (x : triple) (r : list Z) (j : nat) :
  onehot_row width (Some d) x = Return r ->
  (j < width)%nat ->
  length r = width /\
  (r !! j = Some 1 \/ r !! j = Some 0) /\
  (r !! j = Some 1 <->
   exists i : Z, i ∈ default [] (d !! (subj x, pred x)) /\ np_index width i = Some j).
Proof.
  unfold onehot_row, dict_get. intros Hrow Hj.
  destruct (set_ones (replicate width 0) (default [] (d !! (subj x, pred x))))
    as [r' | ] eqn:Hset; [ | done].
  injection Hrow as ->.
  pose proof (set_ones_length _ _ _ Hset) as Hlen.
  rewrite length_replicate in Hlen.
  unfold set_ones in Hset. rewrite length_replicate in Hset.
  destruct (mapM (np_index width) (default [] (d !! (subj x, pred x))))
    as [js | ] eqn:Hjs; [ | done].
  simpl in Hset. injection Hset as <-.
  apply mapM_Some in Hjs.
  pose proof (Forall2_np_index_elem width _ js j Hjs) as Helem.
  rewrite foldr_insert_ones_lookup by (by rewrite length_replicate).
  rewrite lookup_replicate_2 by done.
  split; [done | ].
  destruct (decide (j ∈ js)) as [Hin | Hnin].
  - split; [by left | ]. split; [intros _; by apply Helem | done].
  - split; [by right | ]. split; [done | ].
    intros Hex. by apply Helem in Hex.
Qed.

Lemma onehot_row_columns_witness :
  length [0; 1; 1] = 3%nat /\
  ([0; 1; 1] !! 2%nat = Some 1 \/ [0; 1; 1] !! 2%nat = Some 0) /\
  ([0; 1; 1] !! 2%nat = Some 1 <->
   exists i : Z,
     i ∈ default [] (group_objects kg_train_triples !! (subj (0, 0, 1), pred (0, 0, 1))) /\
     np_index 3 i = Some 2%nat).
Proof.
  apply (onehot_row_columns 3 (group_objects kg_train_triples) (0, 0, 1) [0; 1; 1] 2).
  - vm_compute. reflexivity.
  - lia.
Defined.

Lemma onehot_batch_shape (width : nat) (d : option (gmap (Z * Z) (list Z)))
    (out : list triple) (m : matrix) :
  onehot_batch width d out = Return m ->
  length m = length out /\ Forall (fun r => length r = width) m.
Proof.
  intros H. split; [by eapply onehot_batch_length | ].
  revert m H. induction out as [ | x out IH]; intros m; simpl.
  - intros [= <-]. constructor.
  - destruct (onehot_row width d x) as [r | ] eqn:Hr; [ | done].
    destruct (onehot_batch width d out) as [m' | ]; [ | done].
    intros [= <-]. constructor; [ | by apply IH].
    unfold onehot_row in Hr. destruct (dict_get d x) as [indices | ]; [ | done].
    destruct (set_ones (replicate width 0) indices) as [r' | ] eqn:Hset; [ | done].
    injection Hr as <-. apply set_ones_length in Hset.
    by rewrite length_replicate in Hset.
Qed.

(** X10: when [generate_onehot_outputs] returns in eager mode, the cache
    holds for the dataset a matrix with one row per triple, each as wide
    as the entity vocabulary, flagged with the filter mode asked for; the
    datasets, both mappings and the matrices cached for other datasets are
    as before. *)
Theorem generate_onehot_outputs_builds_matrix (a a' : OneToNDatasetAdapter)
    (name : string) (use_filter : bool) :
  low_memory a = false ->
  generate_onehot_outputs a name use_filter = (Return tt, a') ->
  exists (ts : list triple) (m : matrix),
    dataset (base a) !! name = Some ts /\
    output_onehot a' !! name = Some m /\
    length m = length ts /\
    Forall (fun r => length r = length (ent_to_idx (base a))) m /\
    filtered_status a' !! name = Some use_filter /\
    base a' = base a /\
    filter_mapping a' = filter_mapping a /\
    output_mapping a' = output_mapping a /\
    forall other : string, other <> name ->
      output_onehot a' !! other = output_onehot a !! other.
Proof.
  intros Hlm. unfold generate_onehot_outputs.
  destruct (dataset (base a) !! name) as [ts | ]; [ | done].
  destruct (resolve_mapping a use_filter) as [sel | ]; [ | done].
  rewrite Hlm.
  destruct (fill_onehot (length (ent_to_idx (base a))) sel ts) as [m ok] eqn:Hfill.
  destruct ok; [ | done].
  intros [= <-]. exists ts, m. cbn.
  apply fill_onehot_true, onehot_batch_shape in Hfill as [Hlen Hw].
  rewrite !lookup_insert_eq.
  repeat split; try done.
  intros other Hne. by rewrite lookup_insert_ne.
Qed.

Lemma generate_onehot_outputs_builds_matrix_witness :
  exists (ts : list triple) (m : matrix),
    dataset (base (kg_ready false)) !! "train"%string = Some ts /\
    output_onehot (generate_onehot_outputs (kg_ready false) "train" false).2
      !! "train"%string = Some m /\
    length m = length ts.
Proof.
  destruct (generate_onehot_outputs_builds_matrix (kg_ready false)
              (generate_onehot_outputs (kg_ready false) "train" false).2 "train" false)
    as (ts & m & H1 & H2 & H3 & _).
  - reflexivity.
  - vm_compute. reflexivity.
  - exists ts, m. by repeat split.
Defined.

(** ** The cache across calls *)

Lemma generate_onehot_outputs_fields (a a' : OneToNDatasetAdapter) (name : string)
    (use_filter : bool) (r : outcome unit) :
  generate_onehot_outputs a name use_filter = (r, a') ->
  filter_mapping a' = filter_mapping a /\
  output_mapping a' = output_mapping a /\
  low_memory a' = low_memory a.
Proof.
  unfold generate_onehot_outputs.
  destruct (dataset (base a) !! name); [ | by intros [= <- <-]].
  destruct (resolve_mapping a use_filter); [ | by intros [= <- <-]].
  destruct (low_memory a) eqn:Hl; [by intros [= <- <-] | ].
  destruct (fill_onehot _ _ _) as [m [ | ]]; by intros [= <- <-].
Qed.

Lemma get_next_batch_fields
    (map_data : NumpyDatasetAdapter -> NumpyDatasetAdapter)
    (a : OneToNDatasetAdapter) (k : Z) (name : string) (use_filter : bool)
    (ys : list batch) (e : ending) (a' : OneToNDatasetAdapter) :
  get_next_batch map_data a k name use_filter = (ys, e, a') ->
  filter_mapping a' = filter_mapping a /\
  output_mapping a' = output_mapping a /\
  low_memory a' = low_memory a.
Proof.
  unfold get_next_batch.
  destruct (ensure_mapped map_data a name) as [r a1] eqn:Hens.
  destruct (ensure_mapped_fields _ _ _ _ _ Hens) as (Hfm & _ & Hom & _ & Hl).
  destruct r as [[] | e1]; [ | by intros [= <- <- <-]].
  destruct (dataset (base a1) !! name) as [ts | ]; [ | by intros [= <- <- <-]].
  destruct (batch_plan (Z.of_nat (length ts)) k) as [[batch_size count] | e1];
    [ | by intros [= <- <- <-]].
  destruct (use_filter && is_None (filter_mapping a1)); [by intros [= <- <- <-] | ].
  destruct (low_memory a1) eqn:Hl1; cbn [negb].
  - destruct (lazy_batches _ _ ts batch_size _). intros [= <- <- <-].
    by rewrite Hl1.
  - destruct (match needs_rebuild a1 name use_filter with
              | Return true => generate_onehot_outputs a1 name use_filter
              | Return false => (Return (), a1)
              | Raise e => (Raise e, a1)
              end) as [r2 a2] eqn:Hreb.
    rewrite <- Hl1 in Hl.
    assert (H2 : filter_mapping a2 = filter_mapping a1 /\
                 output_mapping a2 = output_mapping a1 /\
                 low_memory a2 = low_memory a1).
    { destruct (needs_rebuild a1 name use_filter) as [[ | ] | e3].
      - by eapply generate_onehot_outputs_fields.
      - by injection Hreb as _ <-.
      - by injection Hreb as _ <-. }
    destruct H2 as (H2f & H2o & H2l).
    destruct r2 as [[] | e2]; [ | intros [= <- <- <-]; by rewrite H2f, H2o, H2l].
    destruct (output_onehot a2 !! name);
      intros [= <- <- <-]; by rewrite H2f, H2o, H2l.
Qed.

(** X11: in eager mode a run that ends well fills the cache, and the
    same request made again yields the same batches from it and leaves the
    adapter as it is. *)
Theorem get_next_batch_eager_repeat
    (map_data : NumpyDatasetAdapter -> NumpyDatasetAdapter)
    (a : OneToNDatasetAdapter) (k : Z) (name : string) (use_filter : bool)
    (ys : list batch) (a' : OneToNDatasetAdapter) :
  low_memory a = false ->
  output_onehot a !! name = None ->
  mapped_status (base a) !! name = Some true ->
  get_next_batch map_data a k name use_filter = (ys, Exhausted, a') ->
  get_next_batch map_data a' k name use_filter = (ys, Exhausted, a').
Proof.
  intros Hlm Hmiss Hmapped Hrun.
  destruct (get_next_batch_fields _ _ _ _ _ _ _ _ Hrun) as (Hfm & Hom & Hl).
  apply get_next_batch_eager_miss in Hrun; [ | done | done].
  destruct Hrun as [[Hne _] | (_ & ts & sel & m & bs & count & H)]; [done | ].
  destruct H as (Hens & Hdata & Hplan & Hsel & Hm & Hcache & Hflag & ->).
  assert (Hbase : base a' = base a).
  { unfold ensure_mapped in Hens. rewrite Hmapped in Hens.
    injection Hens as Hens. apply (f_equal base) in Hens. by cbn in Hens. }
  assert (Hmapped' : mapped_status (base a') !! name = Some true)
    by (by rewrite Hbase).
  unfold get_next_batch, ensure_mapped.
  rewrite Hmapped'. cbv beta iota. rewrite Hdata, Hplan.
  assert (Hguard : use_filter && is_None (filter_mapping a') = false).
  { destruct use_filter; [ | done]. rewrite Hfm. simpl in Hsel. by rewrite Hsel. }
  rewrite Hguard, Hl, Hlm. cbn [negb].
  unfold needs_rebuild. rewrite Hcache, Hflag.
  destruct use_filter; cbn [negb]; by rewrite Hcache.
Qed.

Lemma get_next_batch_eager_repeat_witness :
  get_next_batch mark_mapped
    (get_next_batch mark_mapped (kg_ready false) 2 "train" false).2 2 "train" false
  = ((get_next_batch mark_mapped (kg_ready false) 2 "train" false).1.1, Exhausted,
     (get_next_batch mark_mapped (kg_ready false) 2 "train" false).2).
Proof.
  apply (get_next_batch_eager_repeat mark_mapped (kg_ready false) 2 "train" false).
  - reflexivity.
  - vm_compute. reflexivity.
  - vm_compute. reflexivity.
  - vm_compute. reflexivity.
Defined.

Lemma batch_plan_raise (n k : Z) (e : exn) :
  batch_plan n k = Raise e -> e = ZeroDivisionError.
Proof.
  unfold batch_plan. destruct (k =? -1); [done | ].
  destruct (k =? 0); [by intros [= <-] | done].
Qed.

Lemma resolve_mapping_raise (a : OneToNDatasetAdapter) (use_filter : bool) (e : exn) :
  resolve_mapping a use_filter = Raise e -> e = ValueError.
Proof.
  unfold resolve_mapping.
  destruct (if use_filter then filter_mapping a else output_mapping a);
    [done | by intros [= <-]].
Qed.

Lemma eager_batches_fits (ts : list triple) (m : matrix) (batch_size count : Z) :
  forallb triple_fits_int32 ts = true ->
  eager_batches ts m batch_size count = sliced_batches ts m batch_size count.
Proof.
  intros Hfit. unfold eager_batches, sliced_batches.
  apply list_fmap_ext. intros i j _. by rewrite triples_slice_fits.
Qed.

Lemma batch_plan_nonzero (n k : Z) :
  k <> 0 -> exists batch_size count : Z, batch_plan n k = Return (batch_size, count).
Proof.
  intros Hk. unfold batch_plan.
  destruct (k =? -1); [eauto | ].
  destruct (Z.eqb_spec k 0); [done | eauto].
Qed.

(** X12: in eager mode, over a mapped dataset whose indices fit in 32
    bits and that is not cached, when building the matrix raises
    [IndexError] the matrix under construction stays in the cache, with
    one row per triple, and no flag is recorded for it; every later
    request without filter for that dataset, with [batches_count] other
    than 0, is then served the slices of that matrix and of the dataset
    and ends without any error. *)
Theorem failed_build_stays_cached
    (map_data : NumpyDatasetAdapter -> NumpyDatasetAdapter)
    (a : OneToNDatasetAdapter) (k : Z) (name : string) (use_filter : bool)
    (ys : list batch) (a' : OneToNDatasetAdapter) (ts : list triple) :
  low_memory a = false ->
  output_onehot a !! name = None ->
  mapped_status (base a) !! name = Some true ->
  dataset (base a) !! name = Some ts ->
  forallb triple_fits_int32 ts = true ->
  get_next_batch map_data a k name use_filter = (ys, Raised IndexError, a') ->
  exists m : matrix,
    output_onehot a' !! name = Some m /\
    length m = length ts /\
    filtered_status a' = filtered_status a /\
    forall k' : Z,
      k' <> 0 ->
      exists batch_size count : Z,
        batch_plan (Z.of_nat (length ts)) k' = Return (batch_size, count) /\
        get_next_batch map_data a' k' name false
        = (sliced_batches ts m batch_size count, Exhausted, a').
Proof.
  intros Hlm Hmiss Hmapped Hdata Hfit.
  unfold get_next_batch at 1. unfold ensure_mapped at 1.
  rewrite Hmapped, Hdata.
  destruct (batch_plan (Z.of_nat (length ts)) k) as [[bs0 count0] | e1] eqn:Hplan0;
    [ | by rewrite (batch_plan_raise _ _ _ Hplan0)].
  destruct (use_filter && is_None (filter_mapping a)); [done | ].
  rewrite Hlm. cbn [negb]. unfold needs_rebuild. rewrite Hmiss.
  unfold generate_onehot_outputs. rewrite Hdata.
  destruct (resolve_mapping a use_filter) as [sel | e1] eqn:Hres;
    [ | by rewrite (resolve_mapping_raise _ _ _ Hres)].
  rewrite Hlm.
  destruct (fill_onehot (length (ent_to_idx (base a))) sel ts) as [m ok] eqn:Hfill.
  destruct ok.
  { cbn [output_onehot]. by rewrite lookup_insert_eq. }
  intros [= <- <-]. exists m. cbn [base output_onehot filtered_status].
  rewrite lookup_insert_eq.
  assert (Hlen : length m = length ts).
  { clear -Hfill. revert m Hfill. induction ts as [ | x ts IH]; intros m.
    - by intros [= <-].
    - cbn [fill_onehot].
      destruct (onehot_row _ (Some sel) x) as [r | ].
      + destruct (fill_onehot _ sel ts) as [m' ok'].
        intros [= <- ->]. simpl. f_equal. by apply IH.
      + intros [= <-]. simpl. by rewrite length_replicate. }
  repeat split; try done.
  intros k' Hk'.
  destruct (batch_plan_nonzero (Z.of_nat (length ts)) k' Hk')
    as (batch_size & count & Hplan).
  exists batch_size, count. split; [done | ].
  unfold get_next_batch, ensure_mapped. cbn [base].
  rewrite Hmapped. cbv beta iota. cbn [base].
  rewrite Hdata, Hplan. cbn [andb low_memory negb].
  unfold needs_rebuild. cbn [output_onehot]. rewrite lookup_insert_eq.
  cbv beta iota. cbn [output_onehot]. rewrite lookup_insert_eq.
  by rewrite eager_batches_fits.
Qed.

Lemma failed_build_stays_cached_witness :
  exists m : matrix,
    output_onehot (get_next_batch mark_mapped (kg_out_of_vocabulary false) 2 "train" false).2
      !! "train"%string = Some m /\
    length m = 2%nat /\
    exists batch_size count : Z,
      get_next_batch mark_mapped
        (get_next_batch mark_mapped (kg_out_of_vocabulary false) 2 "train" false).2
        (-1) "train" false
      = (sliced_batches [(0, 0, 1); (1, 0, 3)] m batch_size count, Exhausted,
         (get_next_batch mark_mapped (kg_out_of_vocabulary false) 2 "train" false).2).
Proof.
  destruct (failed_build_stays_cached mark_mapped (kg_out_of_vocabulary false) 2
              "train" false []
              (get_next_batch mark_mapped (kg_out_of_vocabulary false) 2 "train" false).2
              [(0, 0, 1); (1, 0, 3)])
    as (m & Hc & Hl & _ & Hnext).
  - reflexivity.
  - vm_compute. reflexivity.
  - vm_compute. reflexivity.
  - vm_compute. reflexivity.
  - reflexivity.
  - vm_compute. reflexivity.
  - exists m. split; [exact Hc | ]. split; [exact Hl | ].
    destruct (Hnext (-1)) as (batch_size & count & _ & Hrun); [lia | ].
    by exists batch_size, count.
Defined.

(** ** Shapes of the batches *)

Lemma py_slice_length_eq {A B : Type} (l : list A) (l' : list B) (lo hi : Z) :
  length l = length l' -> length (py_slice l lo hi) = length (py_slice l' lo hi).
Proof.
  intros H. unfold py_slice. rewrite !length_take, !length_drop. by rewrite H.
Qed.

Lemma Forall_py_slice {A : Type} (P : A -> Prop) (l : list A) (lo hi : Z) :
  Forall P l -> Forall P (py_slice l lo hi).
Proof. intros H. unfold py_slice. by apply Forall_take, Forall_drop. Qed.

Lemma lazy_batches_shapes (width : nat) (d : option (gmap (Z * Z) (list Z)))
    (ts : list triple) (batch_size : Z) (idxs : list nat) (ys : list batch)
    (e : ending) :
  lazy_batches width d ts batch_size idxs = (ys, e) ->
  Forall (fun y : batch =>
            length y.2 = length y.1 /\ Forall (fun r => length r = width) y.2) ys.
Proof.
  revert ys e. induction idxs as [ | i idxs IH]; intros ys e; simpl.
  - intros [= <- <-]. constructor.
  - destruct (onehot_batch width d (triples_slice ts batch_size i)) as [oh | ex] eqn:Hoh.
    + destruct (lazy_batches width d ts batch_size idxs) as [ys' e'].
      intros [= <- <-]. constructor; [ | by eapply IH].
      by apply onehot_batch_shape in Hoh.
    + intros [= <- <-]. constructor.
Qed.

(** X13: every batch yielded in low-memory mode, and every batch yielded
    in eager mode when the dataset was not cached before the call, pairs
    its triples with as many one-hot rows, each as wide as the entity
    vocabulary. *)
Theorem get_next_batch_batch_shapes
    (map_data : NumpyDatasetAdapter -> NumpyDatasetAdapter)
    (a : OneToNDatasetAdapter) (k : Z) (name : string) (use_filter : bool)
    (ys : list batch) (e : ending) (a' : OneToNDatasetAdapter) :
  low_memory a = true \/ output_onehot a !! name = None ->
  get_next_batch map_data a k name use_filter = (ys, e, a') ->
  Forall (fun y : batch =>
            length y.2 = length y.1 /\
            Forall (fun r => length r = length (ent_to_idx (base a'))) y.2) ys.
Proof.
  intros Hmode Hrun.
  destruct (low_memory a) eqn:Hlm.
  - revert Hrun. unfold get_next_batch.
    destruct (ensure_mapped map_data a name) as [r a1] eqn:Hens.
    destruct (ensure_mapped_fields _ _ _ _ _ Hens) as (_ & _ & _ & _ & Hl).
    destruct r as [[] | e1]; [ | intros [= <- <- <-]; constructor].
    destruct (dataset (base a1) !! name) as [ts | ];
      [ | intros [= <- <- <-]; constructor].
    destruct (batch_plan (Z.of_nat (length ts)) k) as [[batch_size count] | e1];
      [ | intros [= <- <- <-]; constructor].
    destruct (use_filter && is_None (filter_mapping a1));
      [intros [= <- <- <-]; constructor | ].
    rewrite Hl, Hlm. cbn [negb].
    destruct (lazy_batches _ _ ts batch_size _) as [ys' e'] eqn:Hlazy.
    intros [= <- <- <-]. by eapply lazy_batches_shapes.
  - destruct Hmode as [ | Hmiss]; [done | ].
    apply get_next_batch_eager_miss in Hrun; [ | done | done].
    destruct Hrun as [[_ ->] | (_ & ts & sel & m & bs & count & H)]; [constructor | ].
    destruct H as (_ & _ & _ & _ & Hm & _ & _ & ->).
    apply onehot_batch_shape in Hm as [Hlen Hw].
    unfold eager_batches. apply Forall_fmap, Forall_true. intros i.
    unfold compose. cbn [fst snd].
    split; [ | by apply Forall_py_slice].
    unfold triples_slice. rewrite length_fmap. by apply py_slice_length_eq.
Qed.

Lemma get_next_batch_batch_shapes_witness :
  Forall (fun y : batch =>
            length y.2 = length y.1 /\
            Forall (fun r => length r = 3%nat) y.2)
         (get_next_batch mark_mapped (kg_ready true) 2 "train" false).1.1.
Proof.
  apply (get_next_batch_batch_shapes mark_mapped (kg_ready true) 2 "train" false
           _ (get_next_batch mark_mapped (kg_ready true) 2 "train" false).1.2
           (get_next_batch mark_mapped (kg_ready true) 2 "train" false).2).
  - left. reflexivity.
  - vm_compute. reflexivity.
Defined.

(** ** Setting datasets and filters *)

Lemma set_data_fields (map_data : NumpyDatasetAdapter -> NumpyDatasetAdapter)
    (a a' : OneToNDatasetAdapter) (data : pyobj) (dataset_type : option string)
    (mapped : bool) (r : outcome unit) :
  set_data map_data a data dataset_type mapped = (r, a') ->
  filter_mapping a' = filter_mapping a /\
  filtered_status a' = filtered_status a /\
  output_mapping a' = output_mapping a /\
  output_onehot a' = output_onehot a /\
  low_memory a' = low_memory a.
Proof.
  unfold set_data. destruct data as [items | v].
  - destruct (set_data_items (base a) items mapped) as [[[] | e] b];
      by intros [= <- <-].
  - destruct dataset_type as [name | ]; [ | by intros [= <- <-]].
    destruct (_validate_data v); by intros [= <- <-].
Qed.

(** X15: [set_data] never touches the one-hot cache.  When a dataset
    whose matrix is cached is set again, the next eager request without
    filter for it (the dataset mapped, its indices within 32 bits,
    [batches_count] other than 0) ends well and pairs the slices of the
    triples now stored with the slices of the rows cached for the
    previous ones. *)
Theorem set_data_keeps_cached_matrix
    (map_data : NumpyDatasetAdapter -> NumpyDatasetAdapter)
    (a a1 : OneToNDatasetAdapter) (data : pyobj) (dataset_type : option string)
    (mapped : bool) (r : outcome unit) (name : string) (m : matrix)
    (ts : list triple) (k : Z) :
  low_memory a = false ->
  output_onehot a !! name = Some m ->
  set_data map_data a data dataset_type mapped = (r, a1) ->
  mapped_status (base a1) !! name = Some true ->
  dataset (base a1) !! name = Some ts ->
  forallb triple_fits_int32 ts = true ->
  k <> 0 ->
  output_onehot a1 = output_onehot a /\
  exists batch_size count : Z,
    batch_plan (Z.of_nat (length ts)) k = Return (batch_size, count) /\
    get_next_batch map_data a1 k name false
    = (sliced_batches ts m batch_size count, Exhausted, a1).
Proof.
  intros Hlm Hcache Hset Hmapped Hdata Hfit Hk.
  destruct (set_data_fields _ _ _ _ _ _ _ Hset) as (_ & _ & _ & Hoo & Hl).
  split; [done | ].
  destruct (batch_plan_nonzero (Z.of_nat (length ts)) k Hk)
    as (batch_size & count & Hplan).
  exists batch_size, count. split; [done | ].
  unfold get_next_batch, ensure_mapped.
  rewrite Hmapped. cbv beta iota. rewrite Hdata, Hplan. cbn [andb].
  rewrite Hl, Hlm. cbn [negb].
  unfold needs_rebuild. rewrite Hoo, Hcache. cbv beta iota.
  rewrite Hoo, Hcache. by rewrite eager_batches_fits.
Qed.

Lemma set_data_keeps_cached_matrix_witness :
  exists batch_size count : Z,
    get_next_batch mark_mapped
      (set_data mark_mapped kg_after_filtered_pass (PyValue (array3 [[2; 0; 0]]))
                (Some "train"%string) true).2 1 "train" false
    = (sliced_batches [(2, 0, 0)] [[0; 1; 1]; [0; 1; 1]; [1; 0; 1]] batch_size count,
       Exhausted,
       (set_data mark_mapped kg_after_filtered_pass (PyValue (array3 [[2; 0; 0]]))
                 (Some "train"%string) true).2).
Proof.
  destruct (set_data_keeps_cached_matrix mark_mapped kg_after_filtered_pass
              (set_data mark_mapped kg_after_filtered_pass (PyValue (array3 [[2; 0; 0]]))
                        (Some "train"%string) true).2
              (PyValue (array3 [[2; 0; 0]])) (Some "train"%string) true (Return tt)
              "train" [[0; 1; 1]; [0; 1; 1]; [1; 0; 1]] [(2, 0, 0)] 1)
    as (_ & batch_size & count & _ & Hrun).
  - reflexivity.
  - vm_compute. reflexivity.
  - vm_compute. reflexivity.
  - vm_compute. reflexivity.
  - vm_compute. reflexivity.
  - reflexivity.
  - lia.
  - by exists batch_size, count.
Defined.

(** X16: the filter and the output mapping have lives of their own:
    [set_filter], whether it returns or raises, leaves the output mapping
    as it was, and [set_output_mapping] leaves the filter mapping, the
    flags of the cache and the datasets as they were. *)
Theorem filter_and_output_mapping_independent
    (map_data : NumpyDatasetAdapter -> NumpyDatasetAdapter)
    (a : OneToNDatasetAdapter) (filter_triples : pyobj) (mapped : bool)
    (d : gmap (Z * Z) (list Z)) :
  output_mapping (set_filter map_data a filter_triples mapped).2 = output_mapping a /\
  filter_mapping (set_output_mapping a d) = filter_mapping a /\
  filtered_status (set_output_mapping a d) = filtered_status a /\
  base (set_output_mapping a d) = base a.
Proof.
  split; [ | done].
  unfold set_filter.
  destruct (set_data map_data a filter_triples (Some "filter"%string) mapped)
    as [r1 a1] eqn:Hset.
  destruct (set_data_fields _ _ _ _ _ _ _ Hset) as (_ & _ & Hom & _ & _).
  destruct r1 as [[] | e]; [ | done].
  unfold generate_output_mapping.
  destruct (ensure_mapped map_data a1 "filter") as [r2 a2] eqn:Hens.
  destruct (ensure_mapped_fields _ _ _ _ _ Hens) as (_ & _ & Hom2 & _ & _).
  destruct r2 as [[] | e]; [ | cbn; by rewrite Hom2].
  destruct (dataset (base a2) !! "filter"%string); cbn; by rewrite Hom2.
Qed.

(** X17: when [set_filter] returns, the filter mapping is the grouping of
    the dataset now stored under ['filter']: the object of every triple
    of that dataset is listed under the subject and predicate of the
    triple.  When it raises, the filter mapping is the one from before. *)
Theorem set_filter_builds_mapping
    (map_data : NumpyDatasetAdapter -> NumpyDatasetAdapter)
    (a a' : OneToNDatasetAdapter) (filter_triples : pyobj) (mapped : bool)
    (r : outcome unit) :
  set_filter map_data a filter_triples mapped = (r, a') ->
  match r with
  | Return _ =>
      exists ts : list triple,
        dataset (base a') !! "filter"%string = Some ts /\
        filter_mapping a' = Some (group_objects ts) /\
        forall s p o : Z,
          (s, p, o) ∈ ts ->
          exists l : list Z, group_objects ts !! (s, p) = Some l /\ o ∈ l
  | Raise _ => filter_mapping a' = filter_mapping a
  end.
Proof.
  unfold set_filter.
  destruct (set_data map_data a filter_triples (Some "filter"%string) mapped)
    as [r1 a1] eqn:Hset.
  destruct (set_data_fields _ _ _ _ _ _ _ Hset) as (Hfm & _ & _ & _ & _).
  destruct r1 as [[] | e]; [ | by intros [= <- <-]].
  unfold generate_output_mapping.
  destruct (ensure_mapped map_data a1 "filter") as [r2 a2] eqn:Hens.
  destruct (ensure_mapped_fields _ _ _ _ _ Hens) as (Hfm2 & _ & _ & _ & _).
  destruct r2 as [[] | e]; [ | intros [= <- <-]; by rewrite Hfm2].
  destruct (dataset (base a2) !! "filter"%string) as [ts | ] eqn:Hdata;
    [ | intros [= <- <-]; by rewrite Hfm2].
  intros [= <- <-]. exists ts. cbn. repeat split; [done | ].
  intros s p o Hin. exists (objects_of (s, p) ts).
  rewrite group_objects_lookup.
  pose proof (objects_of_elem ts s p o Hin) as Ho.
  split; [ | done].
  destruct (objects_of (s, p) ts); [by apply elem_of_nil in Ho | done].
Qed.

Lemma set_filter_builds_mapping_witness :
  exists ts : list triple,
    dataset (base (kg_filtered false)) !! "filter"%string = Some ts /\
    filter_mapping (kg_filtered false) = Some (group_objects ts).
Proof.
  pose proof (set_filter_builds_mapping mark_mapped (kg_ready false)
                (kg_filtered false) (PyValue (array3 kg_filter)) true (Return tt)) as H.
  destruct H as (ts & H1 & H2 & _).
  - vm_compute. reflexivity.
  - exists ts. by split.
Defined.

Lemma set_data_items_all_valid (b : NumpyDatasetAdapter)
    (items : list (string * pyvalue)) (mapped : bool) :
  Forall (fun kv => _validate_data kv.2 = Return tt) items ->
  set_data_items b items mapped = (Return tt, assign_all b items mapped).
Proof.
  intros H. revert b. induction H as [ | [key v] items Hv H IH]; intros b; [done | ].
  cbn [set_data_items]. simpl in Hv. rewrite Hv. apply IH.
Qed.

Lemma assign_all_cons (b : NumpyDatasetAdapter) (k : string) (v : pyvalue)
    (items : list (string * pyvalue)) (mapped : bool) :
  assign_all b ((k, v) :: items) mapped
  = assign_all (assign_dataset b k v mapped) items mapped.
Proof. reflexivity. Qed.

Lemma assign_all_lookup_other (b : NumpyDatasetAdapter)
    (items : list (string * pyvalue)) (mapped : bool) (key : string) :
  key ∉ items.*1 ->
  dataset (assign_all b items mapped) !! key = dataset b !! key /\
  mapped_status (assign_all b items mapped) !! key = mapped_status b !! key.
Proof.
  revert b. induction items as [ | [k v] items IH]; intros b Hnin; [done | ].
  rewrite fmap_cons in Hnin. apply not_elem_of_cons in Hnin as [Hne Hnin].
  rewrite assign_all_cons.
  destruct (IH (assign_dataset b k v mapped) Hnin) as [-> ->]. cbn.
  by rewrite !lookup_insert_ne.
Qed.

Lemma assign_all_lookup (b : NumpyDatasetAdapter)
    (items : list (string * pyvalue)) (mapped : bool) (key : string) (v : pyvalue) :
  NoDup items.*1 ->
  (key, v) ∈ items ->
  dataset (assign_all b items mapped) !! key = Some (rows_of v) /\
  mapped_status (assign_all b items mapped) !! key = Some mapped.
Proof.
  revert b. induction items as [ | [k w] items IH]; intros b Hnd Hin.
  - by apply elem_of_nil in Hin.
  - rewrite fmap_cons in Hnd. apply NoDup_cons in Hnd as [Hk Hnd].
    rewrite assign_all_cons.
    apply elem_of_cons in Hin as [[= -> ->] | Hin].
    + destruct (assign_all_lookup_other (assign_dataset b k w mapped) items mapped k Hk)
        as [-> ->].
      cbn. by rewrite !lookup_insert_eq.
    + by apply IH.
Qed.

Lemma assign_all_vocabularies (b : NumpyDatasetAdapter)
    (items : list (string * pyvalue)) (mapped : bool) :
  ent_to_idx (assign_all b items mapped) = ent_to_idx b /\
  rel_to_idx (assign_all b items mapped) = rel_to_idx b.
Proof.
  revert b. induction items as [ | [k w] items IH]; intros b; [done | ].
  rewrite assign_all_cons. by destruct (IH (assign_dataset b k w mapped)) as [-> ->].
Qed.

Lemma map_if_vocab_without_vocabulary
    (map_data : NumpyDatasetAdapter -> NumpyDatasetAdapter) (b : NumpyDatasetAdapter) :
  ent_to_idx b = [] \/ rel_to_idx b = [] -> map_if_vocab map_data b = b.
Proof.
  unfold map_if_vocab. intros [-> | ->]; cbn; [ | done]. by rewrite orb_true_r.
Qed.

(** X18: when no vocabulary is set yet, [set_data] with a dict whose
    arrays all have three columns returns, and afterwards every key of the
    dict names its array, flagged as asked, while the datasets under other
    names are as before. *)
Theorem set_data_bundle_registers_all
    (map_data : NumpyDatasetAdapter -> NumpyDatasetAdapter)
    (a : OneToNDatasetAdapter) (items : list (string * pyvalue))
    (dataset_type : option string) (mapped : bool) :
  ent_to_idx (base a) = [] \/ rel_to_idx (base a) = [] ->
  Forall (fun kv => _validate_data kv.2 = Return tt) items ->
  NoDup items.*1 ->
  exists a' : OneToNDatasetAdapter,
    set_data map_data a (PyDict items) dataset_type mapped = (Return tt, a') /\
    (forall (key : string) (v : pyvalue),
       (key, v) ∈ items ->
       dataset (base a') !! key = Some (rows_of v) /\
       mapped_status (base a') !! key = Some mapped) /\
    (forall key : string,
       key ∉ items.*1 ->
       dataset (base a') !! key = dataset (base a) !! key /\
       mapped_status (base a') !! key = mapped_status (base a) !! key).
Proof.
  intros Hvocab Hvalid Hnd.
  assert (Hmap : map_if_vocab map_data (assign_all (base a) items mapped)
                 = assign_all (base a) items mapped).
  { apply map_if_vocab_without_vocabulary.
    destruct (assign_all_vocabularies (base a) items mapped) as [-> ->]. done. }
  eexists. split; [ | split].
  - unfold set_data. rewrite set_data_items_all_valid by done. reflexivity.
  - intros key v Hin. cbn [with_base base]. rewrite Hmap.
    by apply assign_all_lookup.
  - intros key Hnin. cbn [with_base base]. rewrite Hmap.
    by apply assign_all_lookup_other.
Qed.

Lemma set_data_bundle_registers_all_witness :
  exists a' : OneToNDatasetAdapter,
    set_data mark_mapped (init (mkBase ∅ ∅ [] []) false)
             (PyDict [("train"%string, array3 kg_train);
                      ("test"%string, array3 [[0; 0; 1]])]) None false
    = (Return tt, a') /\
    dataset (base a') !! "test"%string = Some [(0, 0, 1)].
Proof.
  destruct (set_data_bundle_registers_all mark_mapped (init (mkBase ∅ ∅ [] []) false)
              [("train"%string, array3 kg_train); ("test"%string, array3 [[0; 0; 1]])]
              None false) as (a' & Hset & Hin & _).
  - by left.
  - repeat constructor.
  - apply (bool_decide_unpack _). vm_compute. exact I.
  - exists a'. split; [exact Hset | ].
    apply (Hin "test"%string (array3 [[0; 0; 1]])).
    apply elem_of_cons. right. apply elem_of_cons. by left.
Defined.

(** ** More on the subject corruptions *)

Lemma corruption_items_triples (d : gmap (Z * Z) (list Z)) (ent_list : list Z)
    (c : nat) (ts : list triple) (rel_list : list Z) :
  (0 < c)%nat ->
  concat ((fun y : corruption_batch => y.1.2)
            <$> corruption_items d ent_list c ts rel_list)
  = rel ← rel_list; (fun e => (e, rel, 0)) <$> ent_list.
Proof.
  intros Hc. unfold corruption_items.
  induction rel_list as [ | rel rels IH]; [done | ].
  rewrite fmap_cons, bind_cons. cbn [concat].
  rewrite fmap_app, concat_app, IH. f_equal.
  rewrite <- list_fmap_compose.
  transitivity (concat (fmap (M := list) (fun e => (e, rel, 0))
                          <$> ((fun j => take c (drop (j * c) ent_list))
                                 <$> seq 0 (chunk_count (length ent_list) c)))).
  { by rewrite <- list_fmap_compose. }
  rewrite concat_fmap_fmap, concat_chunks.
  rewrite take_ge; [done | ]. by apply chunk_count_covers.
Qed.

(** X19: in a call with the dataset registered, the mapping of the
    filter mode set with valid columns, a positive batch size and pulls
    enough, the
    synthetic triples of all the batches, in the order yielded, are
    [(e, rel, 0)] for every relation [rel] of the vocabulary in turn and,
    under it, every entity [e] of the vocabulary in turn: each entity is a
    candidate subject of each relation exactly once, and the object is
    always 0. *)
Theorem subject_corruptions_enumerate_vocabulary
    (pulls : nat) (a : OneToNDatasetAdapter) (batch_size : Z) (name : string)
    (use_filter : bool) (ts : list triple) (d : gmap (Z * Z) (list Z)) :
  dataset (base a) !! name = Some ts ->
  (if use_filter then filter_mapping a else output_mapping a) = Some d ->
  indices_in_range (length (ent_to_idx (base a))) d ->
  0 < (if batch_size =? -1 then Z.of_nat (length ts) else batch_size) ->
  (length (rel_to_idx (base a))
   * chunk_count (length (ent_to_idx (base a)))
       (Z.to_nat (if (batch_size =? -1)%Z then Z.of_nat (length ts) else batch_size))
   <= pulls)%nat ->
  exists ys : list corruption_batch,
    get_next_batch_subject_corruptions pulls a batch_size name use_filter
    = (ys, Exhausted) /\
    concat ((fun y : corruption_batch => y.1.2) <$> ys)
    = rel ← (rel_to_idx (base a)).*2;
      (fun e => (e, rel, 0)) <$> (ent_to_idx (base a)).*2.
Proof.
  intros Hdata Hsel Hd Hbs Hpulls.
  set (bs := if batch_size =? -1 then Z.of_nat (length ts) else batch_size) in *.
  exists (corruption_items d (ent_to_idx (base a)).*2 (Z.to_nat bs) ts
                           (rel_to_idx (base a)).*2).
  split.
  - unfold get_next_batch_subject_corruptions, get_size.
    rewrite Hsel, Hdata.
    assert (Hplan : (if batch_size =? -1 then Return (Z.of_nat (length ts))
                     else Return batch_size) = Return bs).
    { unfold bs. by destruct (batch_size =? -1). }
    rewrite Hplan. apply corruption_relations_run; [done | | ].
    + by rewrite length_fmap.
    + by rewrite !length_fmap.
  - apply corruption_items_triples. lia.
Qed.

Lemma subject_corruptions_enumerate_vocabulary_witness :
  exists ys : list corruption_batch,
    get_next_batch_subject_corruptions 4 kg_two_relations 2 "train" true
    = (ys, Exhausted) /\
    concat ((fun y : corruption_batch => y.1.2) <$> ys)
    = [(0, 0, 0); (1, 0, 0); (2, 0, 0); (0, 1, 0); (1, 1, 0); (2, 1, 0)].
Proof.
  apply (subject_corruptions_enumerate_vocabulary 4 kg_two_relations 2 "train" true
           kg_train_triples (group_objects kg_train_triples)).
  - vm_compute. reflexivity.
  - vm_compute. reflexivity.
  - unfold indices_in_range. apply (bool_decide_unpack _). vm_compute. exact I.
  - reflexivity.
  - vm_compute. lia.
Defined.



(** ** More on the output mapping *)

Lemma mapping_size_setdefault_append (m : gmap (Z * Z) (list Z)) (x : triple) :
  mapping_size (setdefault_append m x) = S (mapping_size m).
Proof.
  unfold mapping_size, setdefault_append.
  destruct (m !! (subj x, pred x)) as [l | ] eqn:Hk.
  - rewrite (map_fold_delete_L _ _ (subj x, pred x) l m); [ | intros; lia | done].
    rewrite <- insert_delete_eq.
    rewrite map_fold_insert_L; [ | intros; lia | apply lookup_delete_eq].
    simpl. rewrite length_app. simpl. lia.
  - rewrite map_fold_insert_L; [ | intros; lia | done]. done.
Qed.

Lemma mapping_size_group_objects (ts : list triple) :
  mapping_size (group_objects ts) = length ts.
Proof.
  unfold group_objects. induction ts as [ | x ts IH] using rev_ind.
  - unfold mapping_size. cbn [foldl]. apply map_fold_empty.
  - rewrite foldl_snoc, mapping_size_setdefault_append, IH, length_app. simpl. lia.
Qed.

(** X21: when [generate_output_mapping] returns, the dict it returns is
    made from the dataset the adapter then holds under that name (mapped
    first if it was not): it lists as many objects as the dataset has
    triples, no key is bound to an empty list, and a key is absent exactly
    when no triple has it.  The dict is only returned: the filter mapping,
    the output mapping and the cache of the adapter are as before. *)
Theorem generate_output_mapping_accounts_for_every_triple
    (map_data : NumpyDatasetAdapter -> NumpyDatasetAdapter)
    (a a' : OneToNDatasetAdapter) (name : string) (m : gmap (Z * Z) (list Z)) :
  generate_output_mapping map_data a name = (Return m, a') ->
  exists ts : list triple,
    dataset (base a') !! name = Some ts /\
    mapping_size m = length ts /\
    (forall (k : Z * Z) (l : list Z),
       m !! k = Some l -> l <> [] /\ l = objects_of k ts) /\
    (forall k : Z * Z,
       m !! k = None <-> forall x : triple, x ∈ ts -> (subj x, pred x) <> k) /\
    filter_mapping a' = filter_mapping a /\
    output_mapping a' = output_mapping a /\
    output_onehot a' = output_onehot a.
Proof.
  unfold generate_output_mapping.
  destruct (ensure_mapped map_data a name) as [r a1] eqn:Hens.
  destruct (ensure_mapped_fields _ _ _ _ _ Hens) as (Hfm & _ & Hom & Hoo & _).
  destruct r as [[] | e]; [ | done].
  destruct (dataset (base a1) !! name) as [ts | ] eqn:Hdata; [ | done].
  intros [= <- <-]. exists ts.
  split; [done | ]. split; [apply mapping_size_group_objects | ].
  split; [ | split; [apply group_objects_lookup_None | done]].
  intros k l. rewrite group_objects_lookup.
  destruct (objects_of k ts) as [ | o l'] eqn:Hobj; [done | ].
  by intros [= <-].
Qed.

Lemma generate_output_mapping_accounts_for_every_triple_witness :
  exists ts : list triple,
    dataset (base (kg_with_train false)) !! "train"%string = Some ts /\
    mapping_size (group_objects kg_train_triples) = length ts.
Proof.
  destruct (generate_output_mapping_accounts_for_every_triple mark_mapped
              (kg_with_train false) (kg_with_train false) "train"
              (group_objects kg_train_triples)) as (ts & H1 & H2 & _).
  - vm_compute. reflexivity.
  - exists ts. by split.
Defined.

(** ** The request that follows [set_output_mapping] *)




